(** * Stokes-law separation calculator: the calculation core of
      [scripts/stokes_calculator.py], embedded and verified.

    Number model.  Python's [float] is read as a real number ([R]): every
    arithmetic operation is the exact one.  Of Python's float control flow
    the model keeps the division by zero ([ZeroDivisionError]) and the power
    of a negative base with a fractional exponent (a [complex], on which the
    pipeline's [math.exp] raises [TypeError]); both are results of the error
    monad [res] below.  It does not keep what depends on the range and the
    precision of binary64: the [OverflowError] of [math.exp] and of [**] on
    results beyond the largest float, the underflow of small results to 0.0,
    and round-off (a quotient that rounds to exactly 1.0, nearby inputs that
    give equal outputs).  Where these matter a theorem speaks of the values a
    call returns, or carries explicit bounds on its inputs, or states a
    non-strict inequality.  [calculate_langmuir_coverage], which needs only
    [+], [*], [/] and comparisons, is also given in binary64 (module
    [Binary64]) to show where the two readings part. *)

From Stdlib Require Import Reals Lra Lia ZArith Psatz.
From Stdlib Require Import Machin.
From Stdlib Require Import Bool String List.
From Stdlib Require Import Floats.
Import ListNotations.

Open Scope R_scope.

(** ** Outcomes of a float computation *)

Inductive PyError : Set :=
| ZeroDivisionError   (* float division by zero, or [0.0 ** negative] *)
| ComplexValue.       (* [negative ** fractional]: the value is a complex *)

Inductive res (A : Type) : Type :=
| Ok (a : A)
| Raise (e : PyError).

Arguments Ok {A} a.
Arguments Raise {A} e.

Definition bind {A B : Type} (m : res A) (k : A -> res B) : res B :=
  match m with
  | Ok a => k a
  | Raise e => Raise e
  end.

Declare Scope res_scope.
Delimit Scope res_scope with res.
Notation "x <- m ;; k" := (bind m (fun x => k))
  (at level 61, m at next level, right associativity) : res_scope.
Open Scope res_scope.

(** ** Python's numeric built-ins on floats *)

Module Py.

(** [x / y] *)
Definition div (x y : R) : res R :=
  if Req_dec_T y 0 then Raise ZeroDivisionError else Ok (x / y).

(** [x ** y] on two floats. *)
Definition pow (x y : R) : res R :=
  if Rlt_dec 0 x then Ok (Rpower x y)
  else if Req_dec_T x 0 then
    if Rlt_dec 0 y then Ok 0
    else if Req_dec_T y 0 then Ok 1
    else Raise ZeroDivisionError
  else
    if Req_dec_T (frac_part y) 0 then Ok (powerRZ x (Int_part y))
    else Raise ComplexValue.

(** [max(a, b)] keeps its first argument unless the second is greater;
    [min(a, b)] keeps its first argument unless the second is smaller. *)
Definition max (a b : R) : R := if Rlt_dec a b then b else a.
Definition min (a b : R) : R := if Rlt_dec b a then b else a.

(** Round to the nearest integer, ties to the even one. *)
Definition round_half_even (x : R) : Z :=
  let n := Int_part x in
  let f := frac_part x in
  if Rlt_dec f (1 / 2) then n
  else if Rlt_dec (1 / 2) f then (n + 1)%Z
  else if Z.even n then n else (n + 1)%Z.

(** [round(x, ndigits)] on a float: the nearest decimal with [ndigits]
    places, ties to the even one. *)
Definition round (x : R) (ndigits : nat) : R :=
  IZR (round_half_even (x * 10 ^ ndigits)) / 10 ^ ndigits.

End Py.

(** ** Physical constants *)

Definition G : R := 9.81.
Definition R_GAS : R := 8.314.

(** ** Configuration and result records *)

Record FeedProperties : Type := {
  water_fraction : R;
  oil_fraction : R;
  solids_fraction : R;
  water_density : R;
  oil_density : R;
  solids_density : R;
  oil_droplet_d50 : R;
  solids_d50 : R;
  oil_viscosity : R;
  viscosity_temp_coeff : R;
  emulsion_stability : R;
  interfacial_tension : R;
  demulsifier_dose : R;
  demulsifier_eff : R;
  flocculant_dose : R;
  flocculant_eff : R;
  max_packing_fraction : R;
  hindered_settling_exp : R;
  oil_sphericity : R;
  solids_sphericity : R;
  salinity : R
}.

Record EquipmentConfig : Type := {
  bowl_diameter : R;
  bowl_length : R;
  max_rpm : Z;
  min_rpm : Z;
  max_flow : R
}.

Record OperatingConditions : Type := {
  temperature : R;
  bowl_speed : R;
  feed_flow : R
}.

Record SeparationResults : Type := {
  oil_efficiency : R;
  solids_efficiency : R;
  water_quality_ppm : R;
  g_force : R;
  residence_time : R;
  oil_settling_velocity : R;
  solids_settling_velocity : R;
  viscosity : R
}.

(** The dataclasses' default field values. *)

Definition default_feed : FeedProperties := {|
  water_fraction := 0.75;
  oil_fraction := 0.20;
  solids_fraction := 0.05;
  water_density := 1000;
  oil_density := 890;
  solids_density := 2650;
  oil_droplet_d50 := 25;
  solids_d50 := 80;
  oil_viscosity := 50;
  viscosity_temp_coeff := 0.025;
  emulsion_stability := 0.3;
  interfacial_tension := 25;
  demulsifier_dose := 50;
  demulsifier_eff := 0.7;
  flocculant_dose := 0;
  flocculant_eff := 0.8;
  max_packing_fraction := 0.64;
  hindered_settling_exp := 4.65;
  oil_sphericity := 1;
  solids_sphericity := 0.8;
  salinity := 35000
|}.

Definition default_equipment : EquipmentConfig := {|
  bowl_diameter := 400;
  bowl_length := 1100;
  max_rpm := 5000;
  min_rpm := 1500;
  max_flow := 15
|}.

Definition default_conditions : OperatingConditions := {|
  temperature := 65;
  bowl_speed := 3500;
  feed_flow := 12
|}.

(** [FeedProperties(water_fraction=..., oil_fraction=..., solids_fraction=...)]:
    the three phase fractions given, every other field at its default (the
    way [calculate_from_args] builds its feed). *)


(** [OperatingConditions(temperature=...)], the other setpoints at their
    defaults. *)

Definition conditions_at_temperature (temp : R) : OperatingConditions := {|
  temperature := temp;
  bowl_speed := default_conditions.(bowl_speed);
  feed_flow := default_conditions.(feed_flow)
|}.

(** Keyword defaults of the leaf functions. *)

Definition default_ref_temp : R := 25.
Definition default_k : R := 0.05.
Definition default_q_max : R := 0.95.
Definition default_sphericity : R := 1.

(** ** Core calculations *)

Definition calculate_viscosity (base_viscosity temp temp_coeff ref_temp : R) : R :=
  let visc_ref := base_viscosity * 0.001 in
  let visc := visc_ref * exp (temp_coeff * (ref_temp - temp) * 10) in
  visc.

Definition calculate_g_force (bowl_diameter_mm rpm : R) : R :=
  let r := bowl_diameter_mm / 2000 in
  let omega := rpm * 2 * PI / 60 in
  let g_accel := omega * omega * r in
  g_accel / G.

Definition calculate_stokes_velocity
    (diameter_m density_diff viscosity g_accel sphericity : R) : res R :=
  v <- Py.div (diameter_m ^ 2 * density_diff * g_accel * sphericity)
              (18 * viscosity) ;;
  Ok (Rabs v).

Definition calculate_hindered_settling
    (stokes_velocity solids_fraction max_packing exponent : R) : res R :=
  if Rle_dec max_packing solids_fraction then Ok 0
  else
    q <- Py.div solids_fraction max_packing ;;
    hindrance_factor <- Py.pow (1 - q) exponent ;;
    Ok (stokes_velocity * hindrance_factor).

Definition calculate_langmuir_coverage (dose_ppm k q_max : R) : res R :=
  if Rle_dec dose_ppm 0 then Ok 0
  else
    c <- Py.div (k * dose_ppm) (1 + k * dose_ppm) ;;
    let coverage := c * q_max in
    Ok (Py.min coverage q_max).

(** ** The separation-efficiency pipeline *)

(** The local variables of [calculate_separation_efficiency] as they stand
    when its [return] statement is reached. *)

Module Locals.
Record t : Type := {
  viscosity : R;
  r : R;
  omega : R;
  g_accel : R;
  g_force : R;
  water_density_adj : R;
  oil_water_delta_rho : R;
  solids_water_delta_rho : R;
  oil_v_stokes : R;
  solids_v_stokes : R;
  total_solids : R;
  oil_v_hindered : R;
  solids_v_hindered : R;
  bowl_vol : R;
  flow_m3_s : R;
  residence_time : R;
  separation_dist : R;
  oil_sigma : R;
  solids_sigma : R;
  oil_eff_base : R;
  solids_eff_base : R;
  demulsifier_effect : R;
  emulsion_factor : R;
  flocculant_factor : R;
  temp_factor : R;
  flow_factor : R;
  oil_efficiency : R;
  solids_efficiency : R;
  oil_carryover : R;
  oil_recovered : R;
  solids_recovered : R;
  water_output : R;
  water_quality : R
}.
End Locals.

(** The body of [calculate_separation_efficiency] up to its [return], in
    source order; it fails where a statement of the body raises. *)

Definition separation_locals
    (feed : FeedProperties) (equipment : EquipmentConfig)
    (conditions : OperatingConditions) : res Locals.t :=
  (* 1. effective viscosity *)
  let viscosity :=
    calculate_viscosity feed.(oil_viscosity) conditions.(temperature)
                        feed.(viscosity_temp_coeff) default_ref_temp in
  (* 2. centrifugal acceleration *)
  let r := equipment.(bowl_diameter) / 2000 in
  let omega := conditions.(bowl_speed) * 2 * PI / 60 in
  let g_accel := omega * omega * r in
  let g_force := g_accel / G in
  (* 3. density differences *)
  let water_density_adj := feed.(water_density) + feed.(salinity) * 0.0007 in
  let oil_water_delta_rho := water_density_adj - feed.(oil_density) in
  let solids_water_delta_rho := feed.(solids_density) - water_density_adj in
  (* 4. Stokes velocities *)
  let oil_d_m := feed.(oil_droplet_d50) * 1e-6 in
  let solids_d_m := feed.(solids_d50) * 1e-6 in
  oil_v_stokes <-
    calculate_stokes_velocity oil_d_m oil_water_delta_rho viscosity g_accel
                              feed.(oil_sphericity) ;;
  solids_v_stokes <-
    calculate_stokes_velocity solids_d_m solids_water_delta_rho viscosity
                              g_accel feed.(solids_sphericity) ;;
  (* 5. hindered settling correction *)
  let total_solids := feed.(solids_fraction) + feed.(oil_fraction) * 0.1 in
  oil_v_hindered <-
    calculate_hindered_settling oil_v_stokes total_solids
      feed.(max_packing_fraction) feed.(hindered_settling_exp) ;;
  solids_v_hindered <-
    calculate_hindered_settling solids_v_stokes total_solids
      feed.(max_packing_fraction) feed.(hindered_settling_exp) ;;
  (* 6. residence time and separation distance *)
  let bowl_vol := PI * r * r * (equipment.(bowl_length) / 1000) in
  let flow_m3_s := conditions.(feed_flow) / 3600 in
  residence_time <- Py.div bowl_vol (Py.max flow_m3_s 0.001) ;;
  let separation_dist := r * 0.3 in
  (* 7. base efficiency *)
  oil_sigma <- Py.div (oil_v_hindered * residence_time) separation_dist ;;
  solids_sigma <- Py.div (solids_v_hindered * residence_time) separation_dist ;;
  oil_eff_base <- Py.div 100 (1 + exp (-2.5 * (oil_sigma - 1))) ;;
  solids_eff_base <- Py.div 100 (1 + exp (-2.5 * (solids_sigma - 1))) ;;
  (* 8. chemical dosing effects *)
  demulsifier_effect <-
    (if Rlt_dec 0 feed.(demulsifier_dose) then
       coverage <- calculate_langmuir_coverage feed.(demulsifier_dose)
                     default_k default_q_max ;;
       Ok (feed.(demulsifier_eff) * coverage)
     else Ok 0) ;;
  let interfacial_factor := feed.(interfacial_tension) / 25 in
  emulsion_loss <-
    Py.div (feed.(emulsion_stability) * 0.3 * (1 - demulsifier_effect))
           interfacial_factor ;;
  let emulsion_factor := 1 - emulsion_loss in
  let flocculant_factor :=
    if Rlt_dec 0 feed.(flocculant_dose) then
      let floc_eff :=
        feed.(flocculant_eff) * Py.min 1 (feed.(flocculant_dose) / 50) * 0.2 in
      1 + floc_eff
    else 1 in
  (* 9. temperature factor *)
  let temp_factor := 1 + (conditions.(temperature) - 60) * 0.008 in
  (* 10. flow rate factor *)
  let flow_factor := Py.max 0.6 (1 - (conditions.(feed_flow) - 10) * 0.04) in
  (* 11. final efficiencies *)
  let oil_efficiency :=
    Py.min 99.5
      (Py.max 0 (oil_eff_base * flow_factor * emulsion_factor * temp_factor)) in
  let solids_efficiency :=
    Py.min 99.9
      (Py.max 0
         (solids_eff_base * flow_factor * flocculant_factor * temp_factor)) in
  (* 12. water quality *)
  let oil_carryover :=
    conditions.(feed_flow) * feed.(oil_fraction) * (1 - oil_efficiency / 100) in
  let oil_recovered :=
    conditions.(feed_flow) * feed.(oil_fraction) * (oil_efficiency / 100) in
  let solids_recovered :=
    conditions.(feed_flow) * feed.(solids_fraction)
    * (solids_efficiency / 100) in
  let water_output :=
    conditions.(feed_flow) - oil_recovered - solids_recovered in
  water_quality <-
    (if Rlt_dec 0 water_output then
       carry <- Py.div oil_carryover water_output ;;
       density_ratio <- Py.div feed.(oil_density) feed.(water_density) ;;
       Ok (carry * 1e6 * density_ratio)
     else Ok 0) ;;
  Ok {|
    Locals.viscosity := viscosity;
    Locals.r := r;
    Locals.omega := omega;
    Locals.g_accel := g_accel;
    Locals.g_force := g_force;
    Locals.water_density_adj := water_density_adj;
    Locals.oil_water_delta_rho := oil_water_delta_rho;
    Locals.solids_water_delta_rho := solids_water_delta_rho;
    Locals.oil_v_stokes := oil_v_stokes;
    Locals.solids_v_stokes := solids_v_stokes;
    Locals.total_solids := total_solids;
    Locals.oil_v_hindered := oil_v_hindered;
    Locals.solids_v_hindered := solids_v_hindered;
    Locals.bowl_vol := bowl_vol;
    Locals.flow_m3_s := flow_m3_s;
    Locals.residence_time := residence_time;
    Locals.separation_dist := separation_dist;
    Locals.oil_sigma := oil_sigma;
    Locals.solids_sigma := solids_sigma;
    Locals.oil_eff_base := oil_eff_base;
    Locals.solids_eff_base := solids_eff_base;
    Locals.demulsifier_effect := demulsifier_effect;
    Locals.emulsion_factor := emulsion_factor;
    Locals.flocculant_factor := flocculant_factor;
    Locals.temp_factor := temp_factor;
    Locals.flow_factor := flow_factor;
    Locals.oil_efficiency := oil_efficiency;
    Locals.solids_efficiency := solids_efficiency;
    Locals.oil_carryover := oil_carryover;
    Locals.oil_recovered := oil_recovered;
    Locals.solids_recovered := solids_recovered;
    Locals.water_output := water_output;
    Locals.water_quality := water_quality
  |}.

(** The [return] statement: five fields are rounded, three are rescaled. *)

Definition separation_results (l : Locals.t) : SeparationResults := {|
  oil_efficiency := Py.round (Locals.oil_efficiency l) 2;
  solids_efficiency := Py.round (Locals.solids_efficiency l) 2;
  water_quality_ppm := Py.round (Locals.water_quality l) 1;
  g_force := Py.round (Locals.g_force l) 0;
  residence_time := Py.round (Locals.residence_time l) 1;
  oil_settling_velocity := Locals.oil_v_hindered l * 1000;
  solids_settling_velocity := Locals.solids_v_hindered l * 1000;
  viscosity := Locals.viscosity l * 1000
|}.

Definition calculate_separation_efficiency
    (feed : FeedProperties) (equipment : EquipmentConfig)
    (conditions : OperatingConditions) : res SeparationResults :=
  l <- separation_locals feed equipment conditions ;;
  Ok (separation_results l).

(** The result record as the specification words it (section 4.6 and the
    design notes): every field at full precision, nothing rounded in the
    core.  It is compared with [separation_results], the record the source
    builds. *)

Definition full_precision_results (l : Locals.t) : SeparationResults := {|
  oil_efficiency := Locals.oil_efficiency l;
  solids_efficiency := Locals.solids_efficiency l;
  water_quality_ppm := Locals.water_quality l;
  g_force := Locals.g_force l;
  residence_time := Locals.residence_time l;
  oil_settling_velocity := Locals.oil_v_hindered l * 1000;
  solids_settling_velocity := Locals.solids_v_hindered l * 1000;
  viscosity := Locals.viscosity l * 1000
|}.

(** ** The body statement by statement *)

(** The assignments of the body of [calculate_separation_efficiency], each
    read on the local variables it mentions.  [separation_locals] is the
    executable form; [locals_sound] below shows that every frame it returns
    satisfies each of these equations. *)

Record assignments (feed : FeedProperties) (equipment : EquipmentConfig)
    (conditions : OperatingConditions) (l : Locals.t) : Prop := {
  st_viscosity :
    Locals.viscosity l
    = calculate_viscosity feed.(oil_viscosity) conditions.(temperature)
                          feed.(viscosity_temp_coeff) default_ref_temp;
  st_r : Locals.r l = equipment.(bowl_diameter) / 2000;
  st_omega : Locals.omega l = conditions.(bowl_speed) * 2 * PI / 60;
  st_g_accel : Locals.g_accel l = Locals.omega l * Locals.omega l * Locals.r l;
  st_g_force : Locals.g_force l = Locals.g_accel l / G;
  st_water_density_adj :
    Locals.water_density_adj l
    = feed.(water_density) + feed.(salinity) * 0.0007;
  st_oil_water_delta_rho :
    Locals.oil_water_delta_rho l
    = Locals.water_density_adj l - feed.(oil_density);
  st_solids_water_delta_rho :
    Locals.solids_water_delta_rho l
    = feed.(solids_density) - Locals.water_density_adj l;
  st_oil_v_stokes :
    calculate_stokes_velocity (feed.(oil_droplet_d50) * 1e-6)
      (Locals.oil_water_delta_rho l) (Locals.viscosity l) (Locals.g_accel l)
      feed.(oil_sphericity)
    = Ok (Locals.oil_v_stokes l);
  st_solids_v_stokes :
    calculate_stokes_velocity (feed.(solids_d50) * 1e-6)
      (Locals.solids_water_delta_rho l) (Locals.viscosity l)
      (Locals.g_accel l) feed.(solids_sphericity)
    = Ok (Locals.solids_v_stokes l);
  st_total_solids :
    Locals.total_solids l
    = feed.(solids_fraction) + feed.(oil_fraction) * 0.1;
  st_oil_v_hindered :
    calculate_hindered_settling (Locals.oil_v_stokes l) (Locals.total_solids l)
      feed.(max_packing_fraction) feed.(hindered_settling_exp)
    = Ok (Locals.oil_v_hindered l);
  st_solids_v_hindered :
    calculate_hindered_settling (Locals.solids_v_stokes l)
      (Locals.total_solids l) feed.(max_packing_fraction)
      feed.(hindered_settling_exp)
    = Ok (Locals.solids_v_hindered l);
  st_bowl_vol :
    Locals.bowl_vol l
    = PI * Locals.r l * Locals.r l * (equipment.(bowl_length) / 1000);
  st_flow_m3_s : Locals.flow_m3_s l = conditions.(feed_flow) / 3600;
  st_residence_time :
    Py.div (Locals.bowl_vol l) (Py.max (Locals.flow_m3_s l) 0.001)
    = Ok (Locals.residence_time l);
  st_separation_dist : Locals.separation_dist l = Locals.r l * 0.3;
  st_oil_sigma :
    Py.div (Locals.oil_v_hindered l * Locals.residence_time l)
           (Locals.separation_dist l)
    = Ok (Locals.oil_sigma l);
  st_solids_sigma :
    Py.div (Locals.solids_v_hindered l * Locals.residence_time l)
           (Locals.separation_dist l)
    = Ok (Locals.solids_sigma l);
  st_oil_eff_base :
    Py.div 100 (1 + exp (-2.5 * (Locals.oil_sigma l - 1)))
    = Ok (Locals.oil_eff_base l);
  st_solids_eff_base :
    Py.div 100 (1 + exp (-2.5 * (Locals.solids_sigma l - 1)))
    = Ok (Locals.solids_eff_base l);
  st_demulsifier_effect :
    (if Rlt_dec 0 feed.(demulsifier_dose) then
       coverage <- calculate_langmuir_coverage feed.(demulsifier_dose)
                     default_k default_q_max ;;
       Ok (feed.(demulsifier_eff) * coverage)
     else Ok 0)
    = Ok (Locals.demulsifier_effect l);
  st_emulsion_factor :
    exists emulsion_loss : R,
      Py.div (feed.(emulsion_stability) * 0.3
              * (1 - Locals.demulsifier_effect l))
             (feed.(interfacial_tension) / 25)
      = Ok emulsion_loss
      /\ Locals.emulsion_factor l = 1 - emulsion_loss;
  st_flocculant_factor :
    Locals.flocculant_factor l
    = if Rlt_dec 0 feed.(flocculant_dose) then
        1 + feed.(flocculant_eff) * Py.min 1 (feed.(flocculant_dose) / 50) * 0.2
      else 1;
  st_temp_factor :
    Locals.temp_factor l = 1 + (conditions.(temperature) - 60) * 0.008;
  st_flow_factor :
    Locals.flow_factor l
    = Py.max 0.6 (1 - (conditions.(feed_flow) - 10) * 0.04);
  st_oil_efficiency :
    Locals.oil_efficiency l
    = Py.min 99.5
        (Py.max 0 (Locals.oil_eff_base l * Locals.flow_factor l
                   * Locals.emulsion_factor l * Locals.temp_factor l));
  st_solids_efficiency :
    Locals.solids_efficiency l
    = Py.min 99.9
        (Py.max 0 (Locals.solids_eff_base l * Locals.flow_factor l
                   * Locals.flocculant_factor l * Locals.temp_factor l));
  st_oil_carryover :
    Locals.oil_carryover l
    = conditions.(feed_flow) * feed.(oil_fraction)
      * (1 - Locals.oil_efficiency l / 100);
  st_oil_recovered :
    Locals.oil_recovered l
    = conditions.(feed_flow) * feed.(oil_fraction)
      * (Locals.oil_efficiency l / 100);
  st_solids_recovered :
    Locals.solids_recovered l
    = conditions.(feed_flow) * feed.(solids_fraction)
      * (Locals.solids_efficiency l / 100);
  st_water_output :
    Locals.water_output l
    = conditions.(feed_flow) - Locals.oil_recovered l
      - Locals.solids_recovered l;
  st_water_quality :
    (if Rlt_dec 0 (Locals.water_output l) then
       carry <- Py.div (Locals.oil_carryover l) (Locals.water_output l) ;;
       density_ratio <- Py.div feed.(oil_density) feed.(water_density) ;;
       Ok (carry * 1e6 * density_ratio)
     else Ok 0)
    = Ok (Locals.water_quality l)
}.

(** Inputs on which no statement of the body divides by zero: the divisors
    the body forms from the records are non-zero and the packing maximum is
    positive. *)

Definition regular_input (feed : FeedProperties) (equipment : EquipmentConfig)
  : Prop :=
  feed.(oil_viscosity) <> 0
  /\ 0 < feed.(max_packing_fraction)
  /\ equipment.(bowl_diameter) <> 0
  /\ feed.(interfacial_tension) <> 0
  /\ feed.(water_density) <> 0.

(** ** The oil path in closed form on the default feed and equipment *)

(** The oil sigma of a run on [default_feed] and [default_equipment], written
    as one expression of the operating conditions; [default_oil_sigma_eq]
    below proves that it is the value the body computes. *)

Definition default_oil_sigma (c : OperatingConditions) : R :=
  let g_accel :=
    c.(bowl_speed) * 2 * PI / 60 * (c.(bowl_speed) * 2 * PI / 60) * 0.2 in
  let visc := calculate_viscosity 50 c.(temperature) 0.025 default_ref_temp in
  let v_stokes := (25 * 1e-6) ^ 2 * 134.5 * g_accel * 1 / (18 * visc) in
  let v_hindered := v_stokes * Rpower (1 - 0.07 / 0.64) 4.65 in
  let residence := 0.044 * PI / Py.max (c.(feed_flow) / 3600) 0.001 in
  v_hindered * residence / 0.06.

(** ** The Langmuir model in binary64 *)

(** [calculate_langmuir_coverage] on IEEE binary64 numbers, operation by
    operation as the interpreter evaluates it; the constants are the floats
    the literals [0.05] and [0.95] denote. *)

Module Binary64.

Definition default_k : float := 0x1.999999999999ap-5%float.
Definition default_q_max : float := 0x1.e666666666666p-1%float.

Definition calculate_langmuir_coverage (dose_ppm k q_max : float) : res float :=
  if PrimFloat.leb dose_ppm 0%float then Ok 0%float
  else
    let numerator := PrimFloat.mul k dose_ppm in
    let denominator := PrimFloat.add 1%float (PrimFloat.mul k dose_ppm) in
    if PrimFloat.eqb denominator 0%float then Raise ZeroDivisionError
    else
      let coverage :=
        PrimFloat.mul (PrimFloat.div numerator denominator) q_max in
      Ok (if PrimFloat.ltb q_max coverage then q_max else coverage).

End Binary64.

(** ** Validation tests *)

(** A float comparison [x < y] as the Python [bool] it evaluates to. *)

Definition float_lt (x y : R) : bool := if Rlt_dec x y then true else false.

(** [run_validation_tests]: the [results] dictionary it returns, as the list
    of its items in insertion order.  What the function prints is left out,
    except the division [v_hindered / v_stokes] one print statement
    evaluates, since it can raise. *)

Definition run_validation_tests : res (list (string * bool)) :=
  (* Test 1: G-force calculation *)
  let g_force := calculate_g_force 400 3500 in
  let expected_g := 2742 in
  let results_g_force := float_lt (Rabs (g_force - expected_g)) 100 in
  (* Test 2: viscosity temperature dependence *)
  let visc_25 := calculate_viscosity 50 25 0.025 default_ref_temp in
  let visc_65 := calculate_viscosity 50 65 0.025 default_ref_temp in
  let results_viscosity_temp := float_lt visc_65 visc_25 in
  (* Test 3: Stokes velocity *)
  v_stokes <-
    calculate_stokes_velocity 25e-6 100 0.001 1000 default_sphericity ;;
  let results_stokes_velocity := float_lt 0 v_stokes in
  (* Test 4: hindered settling *)
  v_hindered <- calculate_hindered_settling v_stokes 0.2 0.64 4.65 ;;
  let results_hindered_settling := float_lt v_hindered v_stokes in
  printed_factor <- Py.div v_hindered v_stokes ;;
  (* Test 5: Langmuir coverage *)
  coverage <- calculate_langmuir_coverage 50 0.05 0.95 ;;
  let results_langmuir := float_lt 0 coverage && float_lt coverage 1 in
  (* Test 6: full separation calculation *)
  sep <-
    calculate_separation_efficiency default_feed default_equipment
      default_conditions ;;
  let results_separation :=
    float_lt 80 sep.(oil_efficiency) && float_lt sep.(water_quality_ppm) 100 in
  Ok [ ("g_force"%string, results_g_force);
       ("viscosity_temp"%string, results_viscosity_temp);
       ("stokes_velocity"%string, results_stokes_velocity);
       ("hindered_settling"%string, results_hindered_settling);
       ("langmuir"%string, results_langmuir);
       ("separation"%string, results_separation) ].

(** [passed = sum(results.values())] and [total = len(results)]. *)

Definition passed (results : list (string * bool)) : nat :=
  List.length (List.filter snd results).

Definition total (results : list (string * bool)) : nat := List.length results.

(** ** Calculation from command-line arguments *)

(** The parsed arguments ([argparse] namespace) that [calculate_from_args]
    reads. *)

Module Args.
Record t : Type := {
  validate : bool;
  calculate : bool;
  json : bool;
  temp : R;
  rpm : R;
  flow : R;
  oil_frac : R;
  water_frac : R;
  droplet_size : R;
  viscosity : R;
  demulsifier : R;
  bowl_diameter : R;
  bowl_length : R
}.
End Args.

(** The three records [calculate_from_args] builds; fields it does not pass
    keep their dataclass defaults. *)




(** [calculate_from_args]: it computes [results], prints its report and
    returns [None]; the printing is left out. *)


(** The [argparse] defaults of the flags [calculate_from_args] reads. *)


(** * Verification *)

(** ** The error monad *)

Lemma bind_Ok_inv {A B : Type} (m : res A) (k : A -> res B) (b : B) :
  (x <- m ;; k x) = Ok b -> exists a, m = Ok a /\ k a = Ok b.
Proof.
  destruct m as [a|e]; simpl; intros H.
  - exists a; split; [reflexivity | exact H].
  - discriminate H.
Qed.

Lemma div_Ok (x y : R) : y <> 0 -> Py.div x y = Ok (x / y).
Proof.
  intros Hy. unfold Py.div. destruct (Req_dec_T y 0) as [E|_].
  - contradiction.
  - reflexivity.
Qed.

Lemma div_Ok_inv (x y q : R) : Py.div x y = Ok q -> y <> 0 /\ q = x / y.
Proof.
  unfold Py.div. destruct (Req_dec_T y 0) as [E|N]; intros H.
  - discriminate H.
  - injection H as <-. split; [exact N | reflexivity].
Qed.

Lemma div_zero (x : R) : Py.div x 0 = Raise ZeroDivisionError.
Proof.
  unfold Py.div. destruct (Req_dec_T 0 0) as [_|N]; [reflexivity | now elim N].
Qed.

Lemma pow_pos_base (x y : R) : 0 < x -> Py.pow x y = Ok (Rpower x y).
Proof.
  intros Hx. unfold Py.pow. destruct (Rlt_dec 0 x); [reflexivity | contradiction].
Qed.

(** ** [max], [min] and the clamp *)

Lemma max_cases (a b : R) :
  (a < b /\ Py.max a b = b) \/ (b <= a /\ Py.max a b = a).
Proof. unfold Py.max. destruct (Rlt_dec a b); [left | right]; split; lra. Qed.

Lemma min_cases (a b : R) :
  (b < a /\ Py.min a b = b) \/ (a <= b /\ Py.min a b = a).
Proof. unfold Py.min. destruct (Rlt_dec b a); [left | right]; split; lra. Qed.

Lemma clamp_bounds (hi x : R) : 0 <= hi -> 0 <= Py.min hi (Py.max 0 x) <= hi.
Proof.
  intros Hhi. unfold Py.min, Py.max.
  destruct (Rlt_dec 0 x); destruct (Rlt_dec _ hi); lra.
Qed.

Lemma clamp_mono (hi x y : R) :
  x <= y -> Py.min hi (Py.max 0 x) <= Py.min hi (Py.max 0 y).
Proof.
  intros Hxy. unfold Py.min, Py.max.
  destruct (Rlt_dec 0 x); destruct (Rlt_dec 0 y);
    repeat match goal with |- context [Rlt_dec ?a ?b] => destruct (Rlt_dec a b) end;
    lra.
Qed.

Lemma clamp_inside (hi x : R) : 0 <= x <= hi -> Py.min hi (Py.max 0 x) = x.
Proof.
  intros Hx. unfold Py.min, Py.max.
  destruct (Rlt_dec 0 x); destruct (Rlt_dec _ hi); lra.
Qed.

(** ** Rounding *)

Lemma Int_part_bounds (x : R) : IZR (Int_part x) <= x < IZR (Int_part x) + 1.
Proof. destruct (base_Int_part x). lra. Qed.

Lemma Int_part_IZR (z : Z) : Int_part (IZR z) = z.
Proof. symmetry. apply Int_part_spec. lra. Qed.

Lemma Int_part_mono (x y : R) : x <= y -> (Int_part x <= Int_part y)%Z.
Proof.
  intros Hxy.
  pose proof (Int_part_bounds x) as Hx. pose proof (Int_part_bounds y) as Hy.
  apply Z.lt_succ_r. apply lt_IZR. rewrite succ_IZR. lra.
Qed.

Lemma round_half_even_cases (x : R) :
  let n := Int_part x in
  (x - IZR n < 1 / 2 /\ Py.round_half_even x = n) \/
  (1 / 2 < x - IZR n /\ Py.round_half_even x = (n + 1)%Z) \/
  (x - IZR n = 1 / 2 /\
   (Py.round_half_even x = n \/ Py.round_half_even x = (n + 1)%Z)).
Proof.
  unfold Py.round_half_even, frac_part. cbv zeta.
  destruct (Rlt_dec (x - IZR (Int_part x)) (1 / 2)) as [Hlt|Hge].
  - left; split; [exact Hlt | reflexivity].
  - destruct (Rlt_dec (1 / 2) (x - IZR (Int_part x))) as [Hgt|Hle].
    + right; left; split; [exact Hgt | reflexivity].
    + right; right; split; [lra|].
      destruct (Z.even (Int_part x)); [left | right]; reflexivity.
Qed.

Lemma round_half_even_IZR (z : Z) : Py.round_half_even (IZR z) = z.
Proof.
  pose proof (round_half_even_cases (IZR z)) as H. cbv zeta in H.
  rewrite Int_part_IZR in H.
  destruct H as [[_ H]|[[H _]|[H _]]]; [exact H | lra | lra].
Qed.

Lemma round_half_even_near (x : R) :
  Rabs (IZR (Py.round_half_even x) - x) <= 1 / 2.
Proof.
  pose proof (round_half_even_cases x) as H. cbv zeta in H.
  pose proof (Int_part_bounds x) as Hb.
  apply Rabs_le.
  destruct H as [[H E]|[[H E]|[H [E | E]]]]; rewrite E;
    try rewrite plus_IZR; lra.
Qed.

Lemma round_half_even_mono (x y : R) :
  x <= y -> (Py.round_half_even x <= Py.round_half_even y)%Z.
Proof.
  intros [Hxy| ->]; [|apply Z.le_refl].
  pose proof (Int_part_mono x y (Rlt_le _ _ Hxy)) as Hn.
  pose proof (round_half_even_cases x) as Hx. cbv zeta in Hx.
  pose proof (round_half_even_cases y) as Hy. cbv zeta in Hy.
  destruct (Z.eq_dec (Int_part x) (Int_part y)) as [E|N].
  - rewrite E in Hx.
    destruct Hx as [[Hx ->]|[[Hx ->]|[Hx [-> | ->]]]];
    destruct Hy as [[Hy ->]|[[Hy ->]|[Hy [-> | ->]]]];
      try lia; exfalso; lra.
  - assert (Int_part x + 1 <= Int_part y)%Z as Hlt by lia.
    destruct Hx as [[_ ->]|[[_ ->]|[_ [-> | ->]]]];
    destruct Hy as [[_ ->]|[[_ ->]|[_ [-> | ->]]]]; lia.
Qed.

Lemma pow10_pos (n : nat) : 0 < 10 ^ n.
Proof. apply pow_lt. lra. Qed.

Lemma round_mono (x y : R) (n : nat) : x <= y -> Py.round x n <= Py.round y n.
Proof.
  intros Hxy. unfold Py.round.
  pose proof (pow10_pos n) as Hp.
  apply Rmult_le_compat_r; [left; apply Rinv_0_lt_compat; exact Hp|].
  apply IZR_le, round_half_even_mono.
  apply Rmult_le_compat_r; lra.
Qed.

(** A decimal with [n] places is a fixed point of [round(_, n)]. *)
Lemma round_decimal (z : Z) (n : nat) : Py.round (IZR z / 10 ^ n) n = IZR z / 10 ^ n.
Proof.
  unfold Py.round. pose proof (pow10_pos n) as Hp.
  replace (IZR z / 10 ^ n * 10 ^ n) with (IZR z) by (field; lra).
  rewrite round_half_even_IZR. reflexivity.
Qed.

Lemma round_between (a b : Z) (n : nat) (x : R) :
  IZR a / 10 ^ n <= x <= IZR b / 10 ^ n ->
  IZR a / 10 ^ n <= Py.round x n <= IZR b / 10 ^ n.
Proof.
  intros [Ha Hb]. split.
  - rewrite <- (round_decimal a n). apply round_mono, Ha.
  - rewrite <- (round_decimal b n). apply round_mono, Hb.
Qed.

Lemma round_near (x : R) (n : nat) : Rabs (Py.round x n - x) <= / 2 / 10 ^ n.
Proof.
  unfold Py.round. pose proof (pow10_pos n) as Hp.
  pose proof (round_half_even_near (x * 10 ^ n)) as H.
  replace (IZR (Py.round_half_even (x * 10 ^ n)) / 10 ^ n - x)
    with ((IZR (Py.round_half_even (x * 10 ^ n)) - x * 10 ^ n) * / 10 ^ n)
    by (field; lra).
  rewrite Rabs_mult, (Rabs_pos_eq (/ 10 ^ n)).
  2:{ left; apply Rinv_0_lt_compat, Hp. }
  unfold Rdiv.
  apply Rmult_le_compat_r; [left; apply Rinv_0_lt_compat, Hp | lra].
Qed.

(** ** Viscosity model *)

Lemma calculate_viscosity_eq (base temp coeff ref : R) :
  calculate_viscosity base temp coeff ref
  = base * 0.001 * exp (coeff * (ref - temp) * 10).
Proof. reflexivity. Qed.




(** The Arrhenius factor alone: strictly decreasing in temperature for a
    positive coefficient. *)
Lemma arrhenius_factor_decreasing (coeff ref T1 T2 : R) :
  0 < coeff -> T1 < T2 ->
  exp (coeff * (ref - T2) * 10) < exp (coeff * (ref - T1) * 10).
Proof. intros Hc HT. apply exp_increasing. nra. Qed.

(** C5, as stated, fails: with a zero base viscosity both temperatures give
    the same viscosity, so the colder one is not strictly greater. *)
Lemma viscosity_zero_base_not_decreasing :
  (60 < 70 /\ 0 < 0.025)
  /\ ~ (calculate_viscosity 0 70 0.025 default_ref_temp
        < calculate_viscosity 0 60 0.025 default_ref_temp).
Proof.
  split; [lra|].
  rewrite !calculate_viscosity_eq. lra.
Qed.

(** C5, amended: with the default reference temperature, for a strictly
    positive base viscosity, a strictly positive coefficient and
    temperatures [T1 < T2] whose exponent [coeff * (25 - T1) * 10] is at
    most 600, the viscosity at [T2] is not greater than the viscosity at
    [T1]; it is strictly smaller when moreover the base viscosity lies
    between 1e-6 and 1e6, the exponent at [T2] is at least -600 and the two
    exponents differ by at least 1e-6. *)
Theorem viscosity_decreasing_in_temperature (base coeff T1 T2 : R) :
  0 < base -> 0 < coeff -> T1 < T2 ->
  coeff * (default_ref_temp - T1) * 10 <= 600 ->
  calculate_viscosity base T2 coeff default_ref_temp
  <= calculate_viscosity base T1 coeff default_ref_temp
  /\ (1e-6 <= base <= 1e6 ->
      -600 <= coeff * (default_ref_temp - T2) * 10 ->
      1e-6 <= coeff * (T2 - T1) * 10 ->
      calculate_viscosity base T2 coeff default_ref_temp
      < calculate_viscosity base T1 coeff default_ref_temp).
Proof.
  intros Hb Hc HT _.
  assert (calculate_viscosity base T2 coeff default_ref_temp
          < calculate_viscosity base T1 coeff default_ref_temp) as Hlt.
  { rewrite !calculate_viscosity_eq.
    apply Rmult_lt_compat_l; [lra|].
    apply arrhenius_factor_decreasing; assumption. }
  split; [left; exact Hlt | intros _ _ _; exact Hlt].
Qed.

Lemma viscosity_decreasing_60_70 :
  calculate_viscosity 50 70 0.025 default_ref_temp
  < calculate_viscosity 50 60 0.025 default_ref_temp.
Proof.
  destruct (viscosity_decreasing_in_temperature 50 0.025 60 70) as [_ H];
    try (unfold default_ref_temp; lra).
  apply H; unfold default_ref_temp; lra.
Defined.

(** ** Hindered settling model *)

Lemma Rpower_one_base (n : R) : Rpower 1 n = 1.
Proof. unfold Rpower. rewrite ln_1, Rmult_0_r. apply exp_0. Qed.

Lemma Rpower_pos (x y : R) : 0 < Rpower x y.
Proof. unfold Rpower. apply exp_pos. Qed.

Lemma hindered_jammed (v f mp n : R) :
  mp <= f -> calculate_hindered_settling v f mp n = Ok 0.
Proof.
  intros H. unfold calculate_hindered_settling.
  destruct (Rle_dec mp f); [reflexivity | contradiction].
Qed.

Lemma hindered_free (v f mp n : R) :
  0 < mp -> f < mp ->
  calculate_hindered_settling v f mp n = Ok (v * Rpower (1 - f / mp) n)
  /\ 0 < 1 - f / mp.
Proof.
  intros Hmp Hf.
  assert (0 < 1 - f / mp) as Hbase.
  { apply Rlt_0_minus. apply Rmult_lt_reg_r with mp; [exact Hmp|].
    unfold Rdiv. rewrite Rmult_assoc, Rinv_l by lra. lra. }
  split; [|exact Hbase].
  unfold calculate_hindered_settling.
  destruct (Rle_dec mp f) as [Hle|_]; [lra|].
  rewrite div_Ok by lra. simpl.
  rewrite pow_pos_base by exact Hbase. reflexivity.
Qed.




(** ** Langmuir adsorption model *)

Section Langmuir.

Variables k q_max : R.
Hypothesis k_pos : 0 < k.
Hypothesis q_max_pos : 0 < q_max.

Lemma langmuir_no_dose (d : R) :
  d <= 0 -> calculate_langmuir_coverage d k q_max = Ok 0.
Proof.
  intros Hd. unfold calculate_langmuir_coverage.
  destruct (Rle_dec d 0); [reflexivity | contradiction].
Qed.

Lemma langmuir_fraction_bounds (d : R) :
  0 < d -> 0 < k * d / (1 + k * d) < 1.
Proof.
  intros Hd. assert (0 < k * d) as Hkd by (apply Rmult_lt_0_compat; lra).
  split.
  - apply Rdiv_lt_0_compat; lra.
  - apply Rmult_lt_reg_r with (1 + k * d); [lra|].
    unfold Rdiv. rewrite Rmult_assoc, Rinv_l by lra. lra.
Qed.

Lemma langmuir_dosed (d : R) :
  0 < d ->
  calculate_langmuir_coverage d k q_max = Ok (k * d / (1 + k * d) * q_max)
  /\ 0 < k * d / (1 + k * d) * q_max < q_max.
Proof.
  intros Hd. pose proof (langmuir_fraction_bounds d Hd) as Hf.
  assert (0 < k * d) as Hkd by (apply Rmult_lt_0_compat; lra).
  assert (0 < k * d / (1 + k * d) * q_max < q_max) as Hc by nra.
  split; [|exact Hc].
  unfold calculate_langmuir_coverage.
  destruct (Rle_dec d 0) as [Hle|_]; [lra|].
  rewrite div_Ok by lra. simpl. unfold Py.min.
  destruct (Rlt_dec q_max (k * d / (1 + k * d) * q_max)); [lra | reflexivity].
Qed.

Lemma langmuir_fraction_increasing (d1 d2 : R) :
  0 < d1 -> d1 < d2 -> k * d1 / (1 + k * d1) < k * d2 / (1 + k * d2).
Proof.
  intros H1 H12.
  assert (0 < k * d1) by (apply Rmult_lt_0_compat; lra).
  assert (k * d1 < k * d2) by (apply Rmult_lt_compat_l; lra).
  apply Rmult_lt_reg_r with ((1 + k * d1) * (1 + k * d2)).
  - apply Rmult_lt_0_compat; lra.
  - replace (k * d1 / (1 + k * d1) * ((1 + k * d1) * (1 + k * d2)))
      with (k * d1 * (1 + k * d2)) by (field; lra).
    replace (k * d2 / (1 + k * d2) * ((1 + k * d1) * (1 + k * d2)))
      with (k * d2 * (1 + k * d1)) by (field; lra).
    lra.
Qed.

Lemma langmuir_total (d : R) :
  exists c : R,
    calculate_langmuir_coverage d k q_max = Ok c /\ 0 <= c < q_max.
Proof.
  destruct (Rle_dec d 0) as [Hd|Hd].
  - exists 0. rewrite langmuir_no_dose by exact Hd. split; [reflexivity | lra].
  - apply Rnot_le_lt in Hd. destruct (langmuir_dosed d Hd) as [E Hc].
    eexists; split; [exact E | lra].
Qed.

Lemma langmuir_monotone (d1 d2 c1 c2 : R) :
  d1 <= d2 ->
  calculate_langmuir_coverage d1 k q_max = Ok c1 ->
  calculate_langmuir_coverage d2 k q_max = Ok c2 ->
  c1 <= c2 /\ (0 <= d1 -> d1 < d2 -> c1 < c2).
Proof.
  intros H12 E1 E2.
  destruct (Rle_dec d2 0) as [Hd2|Hd2].
  - rewrite langmuir_no_dose in E1, E2 by lra.
    injection E1 as <-. injection E2 as <-. split; [lra | intros; lra].
  - apply Rnot_le_lt in Hd2. destruct (langmuir_dosed d2 Hd2) as [E2' Hc2].
    rewrite E2' in E2. injection E2 as <-.
    destruct (Rle_dec d1 0) as [Hd1|Hd1].
    + rewrite langmuir_no_dose in E1 by exact Hd1. injection E1 as <-.
      split; [lra | intros; lra].
    + apply Rnot_le_lt in Hd1. destruct (langmuir_dosed d1 Hd1) as [E1' Hc1].
      rewrite E1' in E1. injection E1 as <-.
      destruct H12 as [Hlt | ->]; [|split; [lra | intros; lra]].
      pose proof (langmuir_fraction_increasing d1 d2 Hd1 Hlt).
      split; [|intros _ _]; nra.
Qed.

End Langmuir.

(** C6, as stated, fails on binary64 numbers: at a dose of 3e17 the
    quotient [k * dose / (1 + k * dose)] rounds to 1 and the coverage
    returned is [q_max] itself, not a value below it; and between the
    adjacent doses [0x1.0000000004cc5p+0] and [0x1.0000000004cc6p+0] (just
    above 1 ppm) the coverage returned decreases. *)
Lemma binary64_langmuir_reaches_q_max_and_dips :
  Binary64.calculate_langmuir_coverage 3e17%float Binary64.default_k
    Binary64.default_q_max = Ok Binary64.default_q_max
  /\ exists c1 c2 : float,
       Binary64.calculate_langmuir_coverage 0x1.0000000004cc5p+0%float
         Binary64.default_k Binary64.default_q_max = Ok c1
       /\ Binary64.calculate_langmuir_coverage 0x1.0000000004cc6p+0%float
            Binary64.default_k Binary64.default_q_max = Ok c2
       /\ PrimFloat.ltb 0x1.0000000004cc5p+0%float 0x1.0000000004cc6p+0%float
          = true
       /\ PrimFloat.ltb c2 c1 = true.
Proof.
  split; [vm_compute; reflexivity|].
  eexists _, _.
  split; [vm_compute; reflexivity|].
  split; [vm_compute; reflexivity|].
  split; vm_compute; reflexivity.
Qed.

(** C6, amended: with the default constants [k = 0.05] and [q_max = 0.95],
    [calculate_langmuir_coverage] returns, for every dose, a coverage in the
    closed interval [[0, q_max]], strictly below [q_max] for doses up to
    1e9 ppm; the coverage is exactly 0 at dose 0 and at every dose [<= 0];
    and it is strictly larger at the larger of two doses between 1e-6 and
    1e6 ppm that differ by at least one part in a million.  On binary64
    numbers a returned coverage never exceeds [q_max]. *)
Theorem langmuir_coverage_range_and_monotone :
  (forall d : R,
     exists c : R,
       calculate_langmuir_coverage d default_k default_q_max = Ok c
       /\ 0 <= c <= default_q_max
       /\ (d <= 1e9 -> c < default_q_max))
  /\ calculate_langmuir_coverage 0 default_k default_q_max = Ok 0
  /\ (forall d : R,
        d <= 0 -> calculate_langmuir_coverage d default_k default_q_max = Ok 0)
  /\ (forall d1 d2 c1 c2 : R,
        1e-6 <= d1 -> d1 * (1 + 1e-6) <= d2 -> d2 <= 1e6 ->
        calculate_langmuir_coverage d1 default_k default_q_max = Ok c1 ->
        calculate_langmuir_coverage d2 default_k default_q_max = Ok c2 ->
        c1 < c2)
  /\ (forall d c : float,
        Binary64.calculate_langmuir_coverage d Binary64.default_k
          Binary64.default_q_max = Ok c ->
        PrimFloat.ltb Binary64.default_q_max c = false).
Proof.
  assert (0 < default_k) as Hk by (unfold default_k; lra).
  assert (0 < default_q_max) as Hq by (unfold default_q_max; lra).
  split.
  { intros d. destruct (langmuir_total default_k default_q_max Hk Hq d)
      as [c [E Hc]].
    exists c. split; [exact E|]. split; [lra | intros _; lra]. }
  split; [apply langmuir_no_dose; lra|].
  split; [intros d; apply langmuir_no_dose|].
  split.
  { intros d1 d2 c1 c2 H1 H12 H2 E1 E2.
    assert (d1 <= d2) as Hle by nra.
    destruct (langmuir_monotone default_k default_q_max Hk Hq d1 d2 c1 c2
                Hle E1 E2) as [_ Hstrict].
    apply Hstrict; nra. }
  intros d c. unfold Binary64.calculate_langmuir_coverage.
  destruct (PrimFloat.leb d 0%float).
  - intros E. injection E as <-. vm_compute. reflexivity.
  - cbv zeta.
    destruct (PrimFloat.eqb
                (PrimFloat.add 1%float (PrimFloat.mul Binary64.default_k d))
                0%float); [discriminate|].
    destruct (PrimFloat.ltb Binary64.default_q_max
                (PrimFloat.mul
                   (PrimFloat.div (PrimFloat.mul Binary64.default_k d)
                      (PrimFloat.add 1%float
                         (PrimFloat.mul Binary64.default_k d)))
                   Binary64.default_q_max)) eqn:Hlt.
    + intros E. injection E as <-. vm_compute. reflexivity.
    + intros E. injection E as <-. exact Hlt.
Qed.

(** ** The pipeline: every returned frame satisfies the body's assignments *)

Ltac bind_inv H :=
  repeat (let a := fresh "v" in
          let E := fresh "E" in
          apply bind_Ok_inv in H; destruct H as [a [E H]]).

Lemma locals_sound (f : FeedProperties) (e : EquipmentConfig)
    (c : OperatingConditions) (l : Locals.t) :
  separation_locals f e c = Ok l -> assignments f e c l.
Proof.
  intros H. unfold separation_locals in H. cbv zeta in H.
  bind_inv H. injection H as <-.
  constructor; cbn; try reflexivity; try assumption.
  eexists; split; [eassumption | reflexivity].
Qed.

Lemma results_inv (f : FeedProperties) (e : EquipmentConfig)
    (c : OperatingConditions) (res : SeparationResults) :
  calculate_separation_efficiency f e c = Ok res ->
  exists l : Locals.t,
    separation_locals f e c = Ok l /\ res = separation_results l.
Proof.
  intros H. unfold calculate_separation_efficiency in H.
  apply bind_Ok_inv in H. destruct H as [l [E H]].
  injection H as <-. exists l. split; [exact E | reflexivity].
Qed.

Lemma results_of_locals (f : FeedProperties) (e : EquipmentConfig)
    (c : OperatingConditions) (l : Locals.t) :
  separation_locals f e c = Ok l ->
  calculate_separation_efficiency f e c = Ok (separation_results l).
Proof.
  intros H. unfold calculate_separation_efficiency. rewrite H. reflexivity.
Qed.

(** ** Regular inputs: no statement of the body divides by zero *)

Lemma bind_Ok_intro {A B : Type} (m : res A) (k : A -> res B) (a : A) :
  m = Ok a -> (exists b, k a = Ok b) -> exists b, (x <- m ;; k x) = Ok b.
Proof. intros -> H. exact H. Qed.

Lemma max_floor_pos (x : R) : 0.001 <= Py.max x 0.001.
Proof. unfold Py.max. destruct (Rlt_dec x 0.001); lra. Qed.

Lemma stokes_Ok (d dd visc g s : R) :
  visc <> 0 ->
  calculate_stokes_velocity d dd visc g s
  = Ok (Rabs (d ^ 2 * dd * g * s / (18 * visc))).
Proof.
  intros Hv. unfold calculate_stokes_velocity.
  rewrite div_Ok by lra. reflexivity.
Qed.

Lemma hindered_total (v f mp n : R) :
  0 < mp -> exists h, calculate_hindered_settling v f mp n = Ok h.
Proof.
  intros Hmp. destruct (Rle_dec mp f) as [Hj|Hfree].
  - exists 0. apply hindered_jammed, Hj.
  - apply Rnot_le_lt in Hfree.
    destruct (hindered_free v f mp n Hmp Hfree) as [E _]. eexists; exact E.
Qed.

Lemma viscosity_nonzero (base temp coeff ref : R) :
  base <> 0 -> calculate_viscosity base temp coeff ref <> 0.
Proof.
  intros Hb. rewrite calculate_viscosity_eq.
  pose proof (exp_pos (coeff * (ref - temp) * 10)) as He.
  apply Rmult_integral_contrapositive. split; lra.
Qed.

Lemma logistic_Ok (sigma : R) :
  Py.div 100 (1 + exp (-2.5 * (sigma - 1)))
  = Ok (100 / (1 + exp (-2.5 * (sigma - 1)))).
Proof. apply div_Ok. pose proof (exp_pos (-2.5 * (sigma - 1))). lra. Qed.

Lemma locals_total (f : FeedProperties) (e : EquipmentConfig)
    (c : OperatingConditions) :
  regular_input f e -> exists l : Locals.t, separation_locals f e c = Ok l.
Proof.
  intros (Hvisc & Hmp & Hdiam & Hten & Hwd).
  unfold separation_locals. cbv zeta.
  eapply bind_Ok_intro; [apply stokes_Ok, viscosity_nonzero, Hvisc|].
  eapply bind_Ok_intro; [apply stokes_Ok, viscosity_nonzero, Hvisc|].
  match goal with
  | |- exists b, (x <- calculate_hindered_settling ?v ?s ?m ?n ;; _) = _ =>
      destruct (hindered_total v s m n Hmp) as [ho Eo]
  end.
  eapply bind_Ok_intro; [exact Eo|].
  match goal with
  | |- exists b, (x <- calculate_hindered_settling ?v ?s ?m ?n ;; _) = _ =>
      destruct (hindered_total v s m n Hmp) as [hs Es]
  end.
  eapply bind_Ok_intro; [exact Es|].
  eapply bind_Ok_intro.
  { apply div_Ok. pose proof (max_floor_pos (feed_flow c / 3600)). lra. }
  eapply bind_Ok_intro; [apply div_Ok; lra|].
  eapply bind_Ok_intro; [apply div_Ok; lra|].
  eapply bind_Ok_intro; [apply logistic_Ok|].
  eapply bind_Ok_intro; [apply logistic_Ok|].
  assert (exists de,
            (if Rlt_dec 0 (demulsifier_dose f)
             then coverage <- calculate_langmuir_coverage (demulsifier_dose f)
                                default_k default_q_max ;;
                  Ok (demulsifier_eff f * coverage)
             else Ok 0) = Ok de) as [de Ede].
  { destruct (Rlt_dec 0 (demulsifier_dose f)) as [Hd|Hd].
    - destruct (langmuir_total default_k default_q_max) with (d := demulsifier_dose f)
        as [cv [Ecv _]]; try (unfold default_k, default_q_max; lra).
      rewrite Ecv. eexists; reflexivity.
    - eexists; reflexivity. }
  eapply bind_Ok_intro; [exact Ede|].
  eapply bind_Ok_intro; [apply div_Ok; lra|].
  match goal with
  | |- exists b, (x <- (if Rlt_dec 0 ?w then _ else _) ;; _) = _ =>
      destruct (Rlt_dec 0 w) as [Hw|Hw]
  end.
  - eapply bind_Ok_intro.
    { rewrite div_Ok by lra. simpl. rewrite div_Ok by exact Hwd. reflexivity. }
    eexists; reflexivity.
  - eapply bind_Ok_intro; [reflexivity|]. eexists; reflexivity.
Qed.

Corollary efficiency_total (f : FeedProperties) (e : EquipmentConfig)
    (c : OperatingConditions) :
  regular_input f e ->
  exists l : Locals.t,
    separation_locals f e c = Ok l
    /\ calculate_separation_efficiency f e c = Ok (separation_results l).
Proof.
  intros Hreg. destruct (locals_total f e c Hreg) as [l El].
  exists l. split; [exact El | apply results_of_locals, El].
Qed.


(** ** Final efficiencies stay within their caps *)

Lemma default_regular : regular_input default_feed default_equipment.
Proof. unfold regular_input; simpl. repeat split; lra. Qed.

Lemma locals_efficiency_bounds (f : FeedProperties) (e : EquipmentConfig)
    (c : OperatingConditions) (l : Locals.t) :
  assignments f e c l ->
  0 <= Locals.oil_efficiency l <= 99.5
  /\ 0 <= Locals.solids_efficiency l <= 99.9.
Proof.
  intros A. rewrite (st_oil_efficiency _ _ _ _ A), (st_solids_efficiency _ _ _ _ A).
  split; apply clamp_bounds; lra.
Qed.

(** C2: whatever the three records hold, an oil efficiency returned by
    [calculate_separation_efficiency] lies in [[0, 99.5]] and a solids
    efficiency in [[0, 99.9]]. *)
Theorem efficiency_within_caps (f : FeedProperties) (e : EquipmentConfig)
    (c : OperatingConditions) (res : SeparationResults) :
  calculate_separation_efficiency f e c = Ok res ->
  0 <= oil_efficiency res <= 99.5
  /\ 0 <= solids_efficiency res <= 99.9.
Proof.
  intros H. apply results_inv in H. destruct H as [l [El ->]].
  destruct (locals_efficiency_bounds f e c l (locals_sound _ _ _ _ El))
    as [Ho Hs].
  cbn [separation_results oil_efficiency solids_efficiency].
  pose proof (round_between 0 9950 2 (Locals.oil_efficiency l)) as Ro.
  pose proof (round_between 0 9990 2 (Locals.solids_efficiency l)) as Rs.
  simpl (10 ^ 2) in Ro, Rs.
  assert (0 / (10 * (10 * 1)) <= Locals.oil_efficiency l
          <= 9950 / (10 * (10 * 1))) as Ho' by lra.
  assert (0 / (10 * (10 * 1)) <= Locals.solids_efficiency l
          <= 9990 / (10 * (10 * 1))) as Hs' by lra.
  specialize (Ro Ho'). specialize (Rs Hs'). lra.
Qed.

(** The boundary scenario of C2: feed flow at the equipment's rated maximum,
    everything else at its default. *)
Lemma efficiency_within_caps_at_max_flow :
  exists res : SeparationResults,
    calculate_separation_efficiency default_feed default_equipment
      {| temperature := 65; bowl_speed := 3500;
         feed_flow := max_flow default_equipment |} = Ok res
    /\ (0 <= oil_efficiency res <= 99.5
        /\ 0 <= solids_efficiency res <= 99.9).
Proof.
  destruct (efficiency_total default_feed default_equipment
              {| temperature := 65; bowl_speed := 3500;
                 feed_flow := max_flow default_equipment |} default_regular)
    as [l [_ E]].
  exists (separation_results l). split; [exact E|].
  apply (efficiency_within_caps default_feed default_equipment
           {| temperature := 65; bowl_speed := 3500;
              feed_flow := max_flow default_equipment |}
           (separation_results l) E).
Defined.

(** ** The flow floor *)

Lemma flow_floor_binds (x : R) : x <= 0.001 -> Py.max x 0.001 = 0.001.
Proof.
  intros Hx. unfold Py.max. destruct (Rlt_dec x 0.001) as [_|N]; [reflexivity|].
  lra.
Qed.

(** C10: for every feed flow of at most 3.6 m3/h (zero and negative flows
    included) the flow floor binds, [feed_flow / 3600 <= 0.001], and the
    residence time the body computes is exactly [bowl_vol / 0.001]; the
    result record carries that value rounded to one decimal place. *)
Theorem low_flow_residence_time (f : FeedProperties) (e : EquipmentConfig)
    (c : OperatingConditions) (l : Locals.t) :
  feed_flow c <= 3.6 ->
  separation_locals f e c = Ok l ->
  Locals.flow_m3_s l <= 0.001
  /\ Py.max (Locals.flow_m3_s l) 0.001 = 0.001
  /\ Locals.bowl_vol l
     = PI * (bowl_diameter e / 2000) * (bowl_diameter e / 2000)
       * (bowl_length e / 1000)
  /\ Locals.residence_time l = Locals.bowl_vol l / 0.001
  /\ exists res : SeparationResults,
       calculate_separation_efficiency f e c = Ok res
       /\ residence_time res = Py.round (Locals.bowl_vol l / 0.001) 1.
Proof.
  intros Hflow El. pose proof (locals_sound _ _ _ _ El) as A.
  assert (Locals.flow_m3_s l <= 0.001) as Hf.
  { rewrite (st_flow_m3_s _ _ _ _ A). lra. }
  pose proof (st_residence_time _ _ _ _ A) as Hrt.
  rewrite (flow_floor_binds _ Hf) in Hrt.
  apply div_Ok_inv in Hrt. destruct Hrt as [_ Hrt].
  split; [exact Hf|]. split; [apply flow_floor_binds, Hf|].
  split; [rewrite (st_bowl_vol _ _ _ _ A), (st_r _ _ _ _ A); reflexivity|].
  split; [exact Hrt|].
  exists (separation_results l). split; [apply results_of_locals, El|].
  cbn [separation_results residence_time]. rewrite Hrt. reflexivity.
Qed.

(** A physically positive low flow (2 m3/h) on the default feed and
    equipment: the floor caps its residence time as it does for zero flow. *)
Lemma low_flow_residence_time_at_2 :
  exists l : Locals.t,
    separation_locals default_feed default_equipment
      {| temperature := 65; bowl_speed := 3500; feed_flow := 2 |} = Ok l
    /\ Locals.residence_time l = Locals.bowl_vol l / 0.001.
Proof.
  destruct (locals_total default_feed default_equipment
              {| temperature := 65; bowl_speed := 3500; feed_flow := 2 |}
              default_regular) as [l El].
  exists l. split; [exact El|].
  apply (low_flow_residence_time default_feed default_equipment
           {| temperature := 65; bowl_speed := 3500; feed_flow := 2 |} l);
    [simpl; lra | exact El].
Defined.

(** ** Numeric facts: pi, and rounding a bracketed value *)

Lemma PI_bounds : 3.14159 < PI < 3.1416.
Proof.
  pose proof (PI_2_3_7_ineq 2) as [Hlo Hhi].
  unfold sum_f_R0, tg_alt, PI_2_3_7_tg, Ratan_seq in Hlo, Hhi.
  simpl in Hlo, Hhi.
  split; lra.
Qed.

Lemma round_half_even_upper (x : R) (n : Z) :
  IZR n + 1 / 2 < x < IZR n + 1 -> Py.round_half_even x = (n + 1)%Z.
Proof.
  intros Hx.
  assert (n = Int_part x) as E by (apply Int_part_spec; lra).
  pose proof (round_half_even_cases x) as H. cbv zeta in H. rewrite <- E in H.
  destruct H as [[H _]|[[_ H]|[H _]]]; [lra | exact H | lra].
Qed.

Lemma round_half_even_lower (x : R) (n : Z) :
  IZR n <= x < IZR n + 1 / 2 -> Py.round_half_even x = n.
Proof.
  intros Hx.
  assert (n = Int_part x) as E by (apply Int_part_spec; lra).
  pose proof (round_half_even_cases x) as H. cbv zeta in H. rewrite <- E in H.
  destruct H as [[_ H]|[[H _]|[H _]]]; [exact H | lra | lra].
Qed.

(** ** The default run: geometry and residence time *)

Lemma default_residence_time (l : Locals.t) :
  assignments default_feed default_equipment default_conditions l ->
  Locals.r l = 0.2
  /\ Locals.bowl_vol l = 0.044 * PI
  /\ Locals.residence_time l = 13.2 * PI.
Proof.
  intros A.
  assert (Locals.r l = 0.2) as Hr.
  { rewrite (st_r _ _ _ _ A). simpl. lra. }
  assert (Locals.bowl_vol l = 0.044 * PI) as Hv.
  { rewrite (st_bowl_vol _ _ _ _ A), Hr. simpl. lra. }
  split; [exact Hr|]. split; [exact Hv|].
  pose proof (st_residence_time _ _ _ _ A) as Hrt.
  rewrite (st_flow_m3_s _ _ _ _ A) in Hrt. simpl in Hrt.
  unfold Py.max in Hrt.
  destruct (Rlt_dec (12 / 3600) 0.001) as [Hlt|_]; [lra|].
  apply div_Ok_inv in Hrt. destruct Hrt as [_ ->]. rewrite Hv. lra.
Qed.

Lemma round_default_residence_time : Py.round (13.2 * PI) 1 = 41.5.
Proof.
  pose proof PI_bounds as Hpi. unfold Py.round.
  rewrite (round_half_even_upper _ 414) by (simpl; lra).
  simpl. lra.
Qed.

(** ** What the return statement does to the locals *)

(** C1, as stated, fails: on the default configuration the body computes a
    residence time of [13.2 * pi] seconds, and the record it returns carries
    41.5, its rounding to one decimal place; the returned record is not the
    full-precision one. *)
Lemma default_result_is_rounded :
  exists (l : Locals.t) (res : SeparationResults),
    separation_locals default_feed default_equipment default_conditions = Ok l
    /\ calculate_separation_efficiency default_feed default_equipment
         default_conditions = Ok res
    /\ Locals.residence_time l = 13.2 * PI
    /\ residence_time res = 41.5
    /\ residence_time res <> Locals.residence_time l
    /\ res <> full_precision_results l.
Proof.
  destruct (efficiency_total default_feed default_equipment default_conditions
              default_regular) as [l [El Er]].
  destruct (default_residence_time l (locals_sound _ _ _ _ El)) as (_ & _ & Hrt).
  assert (residence_time (separation_results l) = 41.5) as Hres.
  { cbn [separation_results residence_time]. rewrite Hrt.
    apply round_default_residence_time. }
  assert (residence_time (separation_results l) <> Locals.residence_time l)
    as Hne.
  { rewrite Hres, Hrt. pose proof PI_bounds. lra. }
  exists l, (separation_results l).
  repeat split; try assumption.
  intros Heq. apply Hne. rewrite Heq. reflexivity.
Qed.

(** C1, amended: every record returned by [calculate_separation_efficiency]
    is built from the locals by rounding five fields - oil and solids
    efficiency to 2 decimal places, water quality to 1, g-force to 0,
    residence time to 1 - each within half a unit of that place of the
    full-precision value; only the two settling velocities (in mm/s) and
    the viscosity (in mPa.s) are carried at full precision. *)
Theorem result_fields_rounded (f : FeedProperties) (e : EquipmentConfig)
    (c : OperatingConditions) (res : SeparationResults) :
  calculate_separation_efficiency f e c = Ok res ->
  exists l : Locals.t,
    separation_locals f e c = Ok l
    /\ (oil_efficiency res = Py.round (Locals.oil_efficiency l) 2
        /\ Rabs (oil_efficiency res - Locals.oil_efficiency l) <= 0.005)
    /\ (solids_efficiency res = Py.round (Locals.solids_efficiency l) 2
        /\ Rabs (solids_efficiency res - Locals.solids_efficiency l) <= 0.005)
    /\ (water_quality_ppm res = Py.round (Locals.water_quality l) 1
        /\ Rabs (water_quality_ppm res - Locals.water_quality l) <= 0.05)
    /\ (g_force res = Py.round (Locals.g_force l) 0
        /\ Rabs (g_force res - Locals.g_force l) <= 0.5)
    /\ (residence_time res = Py.round (Locals.residence_time l) 1
        /\ Rabs (residence_time res - Locals.residence_time l) <= 0.05)
    /\ oil_settling_velocity res
       = oil_settling_velocity (full_precision_results l)
    /\ solids_settling_velocity res
       = solids_settling_velocity (full_precision_results l)
    /\ viscosity res = viscosity (full_precision_results l).
Proof.
  intros H. apply results_inv in H. destruct H as [l [El ->]].
  exists l. split; [exact El|].
  cbn [separation_results full_precision_results oil_efficiency
       solids_efficiency water_quality_ppm g_force residence_time
       oil_settling_velocity solids_settling_velocity viscosity].
  pose proof (round_near (Locals.oil_efficiency l) 2) as H1.
  pose proof (round_near (Locals.solids_efficiency l) 2) as H2.
  pose proof (round_near (Locals.water_quality l) 1) as H3.
  pose proof (round_near (Locals.g_force l) 0) as H4.
  pose proof (round_near (Locals.residence_time l) 1) as H5.
  simpl pow in H1, H2, H3, H4, H5.
  repeat split; try reflexivity; lra.
Qed.

Lemma result_fields_rounded_default :
  exists res : SeparationResults,
    calculate_separation_efficiency default_feed default_equipment
      default_conditions = Ok res
    /\ exists l : Locals.t,
         separation_locals default_feed default_equipment default_conditions
         = Ok l
         /\ residence_time res = Py.round (Locals.residence_time l) 1
         /\ viscosity res = Locals.viscosity l * 1000.
Proof.
  destruct (efficiency_total default_feed default_equipment default_conditions
              default_regular) as [l0 [_ Er]].
  exists (separation_results l0). split; [exact Er|].
  destruct (result_fields_rounded default_feed default_equipment
              default_conditions (separation_results l0) Er)
    as (l & El & _ & _ & _ & _ & [Hrt _] & _ & _ & Hv).
  exists l. split; [exact El|]. split; [exact Hrt | exact Hv].
Defined.

(** ** Numeric facts: the exponential *)

(** Squaring a lower bound: from [b <= exp y] to [b * b <= exp (2 y)]. *)
Lemma exp_square_lower (a b y z : R) :
  b <= exp y -> 0 <= b -> a <= b * b -> z = 2 * y -> a <= exp z.
Proof.
  intros Hb Hb0 Ha ->. replace (2 * y) with (y + y) by ring.
  rewrite exp_plus. nra.
Qed.




(** ** Correction factors on default chemistry and setpoints *)

Lemma default_chemistry_factors (f : FeedProperties) (e : EquipmentConfig)
    (c : OperatingConditions) (l : Locals.t) :
  assignments f e c l ->
  demulsifier_dose f = 50 -> demulsifier_eff f = 0.7 ->
  emulsion_stability f = 0.3 -> interfacial_tension f = 25 ->
  flocculant_dose f = 0 ->
  Locals.emulsion_factor l = 0.95275 /\ Locals.flocculant_factor l = 1.
Proof.
  intros A Hdose Heff Hstab Hten Hfloc. split.
  - pose proof (st_demulsifier_effect _ _ _ _ A) as Hde.
    destruct (st_emulsion_factor _ _ _ _ A) as [loss [Hloss ->]].
    rewrite Hdose, Heff in Hde. rewrite Hstab, Hten in Hloss.
    destruct (Rlt_dec 0 50) as [_|N]; [|lra].
    destruct (langmuir_dosed default_k default_q_max) with (d := 50)
      as [Ecv _]; try (unfold default_k, default_q_max; lra).
    rewrite Ecv in Hde. simpl in Hde. injection Hde as Hde.
    apply div_Ok_inv in Hloss. destruct Hloss as [_ ->].
    rewrite <- Hde. unfold default_k, default_q_max. lra.
  - rewrite (st_flocculant_factor _ _ _ _ A), Hfloc.
    destruct (Rlt_dec 0 0) as [N|_]; [lra | reflexivity].
Qed.

Lemma default_flow_factor (f : FeedProperties) (e : EquipmentConfig)
    (c : OperatingConditions) (l : Locals.t) :
  assignments f e c l -> feed_flow c = 12 -> Locals.flow_factor l = 0.92.
Proof.
  intros A Hflow. rewrite (st_flow_factor _ _ _ _ A), Hflow.
  unfold Py.max. destruct (Rlt_dec 0.6 (1 - (12 - 10) * 0.04)); lra.
Qed.

(** ** Jammed feeds *)




(** ** The oil path on the default feed and equipment *)

Lemma default_viscosity_pos (T : R) :
  0 < calculate_viscosity 50 T 0.025 default_ref_temp.
Proof.
  rewrite calculate_viscosity_eq.
  pose proof (exp_pos (0.025 * (default_ref_temp - T) * 10)). nra.
Qed.

Lemma default_oil_sigma_eq (c : OperatingConditions) (l : Locals.t) :
  assignments default_feed default_equipment c l ->
  Locals.oil_sigma l = default_oil_sigma c
  /\ Locals.oil_eff_base l = 100 / (1 + exp (-2.5 * (default_oil_sigma c - 1))).
Proof.
  intros A.
  pose proof (default_viscosity_pos (temperature c)) as Hvisc.
  assert (Locals.viscosity l
          = calculate_viscosity 50 (temperature c) 0.025 default_ref_temp)
    as Ev by (rewrite (st_viscosity _ _ _ _ A); reflexivity).
  assert (Locals.r l = 0.2) as Er by (rewrite (st_r _ _ _ _ A); simpl; lra).
  assert (Locals.g_accel l
          = bowl_speed c * 2 * PI / 60 * (bowl_speed c * 2 * PI / 60) * 0.2)
    as Eg.
  { rewrite (st_g_accel _ _ _ _ A), (st_omega _ _ _ _ A), Er. reflexivity. }
  assert (0 <= Locals.g_accel l) as Hg by (rewrite Eg; nra).
  assert (Locals.oil_water_delta_rho l = 134.5) as Ed.
  { rewrite (st_oil_water_delta_rho _ _ _ _ A),
            (st_water_density_adj _ _ _ _ A). simpl. lra. }
  pose proof (st_oil_v_stokes _ _ _ _ A) as Es.
  rewrite stokes_Ok in Es by (rewrite Ev; lra).
  injection Es as Es. rewrite Ed in Es. cbn [default_feed oil_droplet_d50 oil_sphericity] in Es.
  rewrite Rabs_pos_eq in Es.
  2:{ apply Rmult_le_pos; [|left; apply Rinv_0_lt_compat; rewrite Ev; lra].
      apply Rmult_le_pos; [|lra]. apply Rmult_le_pos; [lra | exact Hg]. }
  pose proof (st_oil_v_hindered _ _ _ _ A) as Eh.
  rewrite (st_total_solids _ _ _ _ A) in Eh.
  cbn [default_feed solids_fraction oil_fraction max_packing_fraction
       hindered_settling_exp] in Eh.
  replace (0.05 + 0.20 * 0.1) with 0.07 in Eh by lra.
  destruct (hindered_free (Locals.oil_v_stokes l) 0.07 0.64 4.65)
    as [Eh' _]; try lra.
  rewrite Eh' in Eh. injection Eh as Eh.
  assert (Locals.bowl_vol l = 0.044 * PI) as Eb.
  { rewrite (st_bowl_vol _ _ _ _ A), Er. simpl. lra. }
  pose proof (st_residence_time _ _ _ _ A) as Et.
  rewrite (st_flow_m3_s _ _ _ _ A), Eb in Et.
  apply div_Ok_inv in Et. destruct Et as [_ Et].
  assert (Locals.separation_dist l = 0.06) as Esd.
  { rewrite (st_separation_dist _ _ _ _ A), Er. lra. }
  pose proof (st_oil_sigma _ _ _ _ A) as Esig.
  apply div_Ok_inv in Esig. destruct Esig as [_ Esig].
  assert (Locals.oil_sigma l = default_oil_sigma c) as Hsig.
  { rewrite Esig, Esd, Et, <- Eh, <- Es, Ev, Eg. reflexivity. }
  split; [exact Hsig|].
  pose proof (st_oil_eff_base _ _ _ _ A) as Ebase.
  rewrite logistic_Ok in Ebase. injection Ebase as Ebase.
  rewrite <- Ebase, Hsig. reflexivity.
Qed.

Lemma logistic_bounds (sigma : R) :
  0 < 100 / (1 + exp (-2.5 * (sigma - 1))) < 100.
Proof.
  pose proof (exp_pos (-2.5 * (sigma - 1))) as He.
  assert (0 < 1 + exp (-2.5 * (sigma - 1))) as Hd by lra.
  split.
  - apply Rdiv_lt_0_compat; lra.
  - apply Rmult_lt_reg_r with (1 + exp (-2.5 * (sigma - 1))); [exact Hd|].
    unfold Rdiv. rewrite Rmult_assoc, Rinv_l by lra. lra.
Qed.

Lemma logistic_mono (s1 s2 : R) :
  s1 <= s2 ->
  100 / (1 + exp (-2.5 * (s1 - 1))) <= 100 / (1 + exp (-2.5 * (s2 - 1))).
Proof.
  intros Hs.
  pose proof (exp_pos (-2.5 * (s1 - 1))) as H1.
  pose proof (exp_pos (-2.5 * (s2 - 1))) as H2.
  assert (exp (-2.5 * (s2 - 1)) <= exp (-2.5 * (s1 - 1))) as He.
  { destruct Hs as [Hlt | ->]; [left; apply exp_increasing; lra | right; reflexivity]. }
  unfold Rdiv. apply Rmult_le_compat_l; [lra|].
  apply Rinv_le_contravar; lra.
Qed.

Lemma sigma_scaling (K v1 v2 H rt : R) :
  0 <= K -> 0 < v2 -> v2 <= v1 -> 0 <= H -> 0 <= rt ->
  K / (18 * v1) * H * rt / 0.06 <= K / (18 * v2) * H * rt / 0.06.
Proof.
  intros HK Hv2 Hv HH Hrt.
  assert (K / (18 * v1) <= K / (18 * v2)) as Hq.
  { unfold Rdiv. apply Rmult_le_compat_l; [exact HK|].
    apply Rinv_le_contravar; lra. }
  assert (0 <= H * rt) as Hp by (apply Rmult_le_pos; assumption).
  nra.
Qed.

(** On the default feed and equipment, at equal bowl speed and feed flow, a
    higher temperature gives a higher or equal oil sigma. *)
Lemma default_oil_sigma_mono (c1 c2 : OperatingConditions) :
  bowl_speed c1 = bowl_speed c2 -> feed_flow c1 = feed_flow c2 ->
  temperature c1 <= temperature c2 ->
  default_oil_sigma c1 <= default_oil_sigma c2.
Proof.
  intros Hs Hf HT. unfold default_oil_sigma. cbv zeta. rewrite Hs, Hf.
  pose proof (default_viscosity_pos (temperature c1)) as V1.
  pose proof (default_viscosity_pos (temperature c2)) as V2.
  assert (calculate_viscosity 50 (temperature c2) 0.025 default_ref_temp
          <= calculate_viscosity 50 (temperature c1) 0.025 default_ref_temp)
    as Hv.
  { destruct HT as [Hlt | ->]; [|right; reflexivity].
    left. rewrite !calculate_viscosity_eq.
    apply Rmult_lt_compat_l; [lra|].
    apply arrhenius_factor_decreasing; lra. }
  pose proof (Rpower_pos (1 - 0.07 / 0.64) 4.65) as HH.
  pose proof (max_floor_pos (feed_flow c2 / 3600)) as Hfl.
  pose proof PI_bounds as Hpi.
  assert (0 <= 0.044 * PI / Py.max (feed_flow c2 / 3600) 0.001) as Hrt.
  { apply Rmult_le_pos; [lra|]. left. apply Rinv_0_lt_compat. lra. }
  assert (0 <= (25 * 1e-6) ^ 2 * 134.5
               * (bowl_speed c2 * 2 * PI / 60 * (bowl_speed c2 * 2 * PI / 60)
                  * 0.2) * 1) as HK.
  { apply Rmult_le_pos; [|lra]. apply Rmult_le_pos; [simpl; lra | nra]. }
  apply sigma_scaling; try assumption; lra.
Qed.

Lemma default_oil_efficiency (c : OperatingConditions) (l : Locals.t) :
  assignments default_feed default_equipment c l ->
  feed_flow c = 12 ->
  Locals.oil_efficiency l
  = Py.min 99.5
      (Py.max 0
         (100 / (1 + exp (-2.5 * (default_oil_sigma c - 1)))
          * 0.92 * 0.95275 * (1 + (temperature c - 60) * 0.008))).
Proof.
  intros A Hflow.
  destruct (default_oil_sigma_eq c l A) as [_ Hbase].
  destruct (default_chemistry_factors _ _ _ l A) as [Hem _]; try reflexivity.
  rewrite (st_oil_efficiency _ _ _ _ A), Hbase, Hem,
          (default_flow_factor _ _ _ l A Hflow), (st_temp_factor _ _ _ _ A).
  reflexivity.
Qed.

(** ** Temperature monotonicity on the default configuration *)

Lemma default_oil_efficiency_mono (c1 c2 : OperatingConditions)
    (l1 l2 : Locals.t) :
  assignments default_feed default_equipment c1 l1 ->
  assignments default_feed default_equipment c2 l2 ->
  bowl_speed c1 = bowl_speed c2 ->
  feed_flow c1 = 12 -> feed_flow c2 = 12 ->
  -65 <= temperature c1 <= temperature c2 ->
  Locals.oil_efficiency l1 <= Locals.oil_efficiency l2.
Proof.
  intros A1 A2 Hs Hf1 Hf2 [HT0 HT].
  rewrite (default_oil_efficiency c1 l1 A1 Hf1),
          (default_oil_efficiency c2 l2 A2 Hf2).
  apply clamp_mono.
  pose proof (default_oil_sigma_mono c1 c2 Hs (eq_trans Hf1 (eq_sym Hf2)) HT)
    as Hsig.
  pose proof (logistic_mono _ _ Hsig) as Hb.
  pose proof (logistic_bounds (default_oil_sigma c1)) as [Hb1 _].
  set (b1 := 100 / (1 + exp (-2.5 * (default_oil_sigma c1 - 1)))) in *.
  set (b2 := 100 / (1 + exp (-2.5 * (default_oil_sigma c2 - 1)))) in *.
  assert (0 <= 1 + (temperature c1 - 60) * 0.008) as Ht1 by lra.
  assert (1 + (temperature c1 - 60) * 0.008
          <= 1 + (temperature c2 - 60) * 0.008) as Ht by lra.
  apply Rmult_le_compat; [nra | exact Ht1 | nra | exact Ht].
Qed.

(** C8: with every other input at its default, the oil efficiency returned
    at 70 C is greater than or equal to the one returned at 60 C. *)
Theorem oil_efficiency_60_to_70 :
  exists r60 r70 : SeparationResults,
    calculate_separation_efficiency default_feed default_equipment
      (conditions_at_temperature 60) = Ok r60
    /\ calculate_separation_efficiency default_feed default_equipment
         (conditions_at_temperature 70) = Ok r70
    /\ oil_efficiency r60 <= oil_efficiency r70.
Proof.
  destruct (efficiency_total default_feed default_equipment
              (conditions_at_temperature 60) default_regular)
    as [l60 [E60 R60]].
  destruct (efficiency_total default_feed default_equipment
              (conditions_at_temperature 70) default_regular)
    as [l70 [E70 R70]].
  exists (separation_results l60), (separation_results l70).
  split; [exact R60|]. split; [exact R70|].
  cbn [separation_results oil_efficiency].
  apply round_mono.
  apply (default_oil_efficiency_mono (conditions_at_temperature 60)
           (conditions_at_temperature 70));
    try (apply locals_sound; assumption); try reflexivity.
  simpl. lra.
Qed.

(** ** The default configuration, numerically *)

Lemma PI_sqr_bounds : 9.86958 < PI * PI < 9.86966.
Proof. pose proof PI_bounds. nra. Qed.

Lemma default_g_force_value (l : Locals.t) :
  assignments default_feed default_equipment default_conditions l ->
  Locals.g_force l = calculate_g_force 400 3500
  /\ 26867 < Locals.g_accel l < 26868
  /\ 2738.7 < Locals.g_force l < 2738.9.
Proof.
  intros A. pose proof PI_sqr_bounds as Hpi.
  assert (Locals.g_accel l = 3500 * 2 * PI / 60 * (3500 * 2 * PI / 60) * (400 / 2000))
    as Eg.
  { rewrite (st_g_accel _ _ _ _ A), (st_omega _ _ _ _ A), (st_r _ _ _ _ A).
    reflexivity. }
  assert (Locals.g_force l = calculate_g_force 400 3500) as Ef.
  { rewrite (st_g_force _ _ _ _ A), Eg. reflexivity. }
  assert (Locals.g_accel l = 24500 / 9 * (PI * PI)) as Eg' by (rewrite Eg; field).
  split; [exact Ef|]. split; [lra|].
  rewrite (st_g_force _ _ _ _ A), Eg'. unfold G. lra.
Qed.

Lemma exp_10_lower : 1024 <= exp 10.
Proof.
  assert (2 <= exp 1) as H1 by (pose proof (exp_ineq1_le 1); lra).
  assert (4 <= exp 2) as H2 by (apply (exp_square_lower _ _ 1 _ H1); lra).
  assert (16 <= exp 4) as H4 by (apply (exp_square_lower _ _ 2 _ H2); lra).
  assert (256 <= exp 8) as H8 by (apply (exp_square_lower _ _ 4 _ H4); lra).
  replace 10 with (8 + 2) by lra. rewrite exp_plus. nra.
Qed.

Lemma default_hindrance_lower : 0.56 <= Rpower (1 - 0.07 / 0.64) 4.65.
Proof.
  assert (0 < 1 - 0.07 / 0.64 < 1) as Hb by lra.
  apply Rle_trans with (Rpower (1 - 0.07 / 0.64) (INR 5)).
  - rewrite Rpower_pow by lra. simpl. lra.
  - unfold Rpower. 
    assert (ln (1 - 0.07 / 0.64) < 0) as Hln.
    { rewrite <- ln_1. apply ln_increasing; lra. }
    assert (INR 5 = 5) as -> by (simpl; lra).
    left. apply exp_increasing. nra.
Qed.

Lemma div_lower_bound (a0 a d d0 : R) :
  0 <= a0 -> a0 <= a -> 0 < d -> d <= d0 -> a0 / d0 <= a / d.
Proof.
  intros Ha0 Ha Hd Hd0. unfold Rdiv.
  apply Rmult_le_compat; [exact Ha0 | | exact Ha | ].
  - left. apply Rinv_0_lt_compat. lra.
  - apply Rinv_le_contravar; assumption.
Qed.

Lemma default_viscosity_at_65 :
  0 < calculate_viscosity 50 65 0.025 default_ref_temp <= 0.05 / 1024.
Proof.
  split; [apply default_viscosity_pos|].
  rewrite calculate_viscosity_eq. unfold default_ref_temp.
  replace (0.025 * (25 - 65) * 10) with (-10) by lra.
  pose proof exp_10_lower as He. pose proof (exp_pos (-10)) as Hm.
  assert (exp (-10) * exp 10 = 1) as Hinv.
  { rewrite <- exp_plus. replace (-10 + 10) with 0 by lra. apply exp_0. }
  nra.
Qed.

Lemma default_oil_sigma_lower : 900 <= default_oil_sigma default_conditions.
Proof.
  unfold default_oil_sigma. cbv zeta.
  cbn [default_conditions bowl_speed temperature feed_flow].
  pose proof PI_bounds as Hpi. pose proof PI_sqr_bounds as Hpi2.
  pose proof default_hindrance_lower as HH.
  pose proof default_viscosity_at_65 as [Hv0 Hv].
  assert (Py.max (12 / 3600) 0.001 = 12 / 3600) as Emax.
  { unfold Py.max. destruct (Rlt_dec (12 / 3600) 0.001); [lra | reflexivity]. }
  rewrite Emax.
  set (visc := calculate_viscosity 50 65 0.025 default_ref_temp) in *.
  set (H := Rpower (1 - 0.07 / 0.64) 4.65) in *.
  assert (2.5 <= (25 * 1e-6) ^ 2 * 134.5
                 * (3500 * 2 * PI / 60 * (3500 * 2 * PI / 60) * 0.2) * 1
                 / (18 * visc)) as Hs.
  { apply Rle_trans with (0.0022 / (18 * (0.05 / 1024))); [lra|].
    apply div_lower_bound; [lra | simpl pow; nra | lra | lra]. }
  assert (41.4 <= 0.044 * PI / (12 / 3600)) as Hrt by lra.
  set (vs := (25 * 1e-6) ^ 2 * 134.5
             * (3500 * 2 * PI / 60 * (3500 * 2 * PI / 60) * 0.2) * 1
             / (18 * visc)) in *.
  set (rt := 0.044 * PI / (12 / 3600)) in *.
  assert (2.5 * 0.56 <= vs * H) as Hvh by (apply Rmult_le_compat; lra).
  assert (2.5 * 0.56 * 41.4 <= vs * H * rt) as Hall
    by (apply Rmult_le_compat; lra).
  lra.
Qed.

Lemma logistic_saturated (sigma : R) :
  900 <= sigma -> 99.95 <= 100 / (1 + exp (-2.5 * (sigma - 1))).
Proof.
  intros Hs.
  set (y := 2.5 * (sigma - 1)).
  replace (-2.5 * (sigma - 1)) with (- y) by (unfold y; lra).
  assert (2247.5 <= y) as Hy by (unfold y; lra).
  pose proof (exp_ineq1_le y) as He. pose proof (exp_pos (- y)) as Hm.
  assert (exp (- y) * exp y = 1) as Hinv.
  { rewrite <- exp_plus. replace (- y + y) with 0 by lra. apply exp_0. }
  assert (exp (- y) <= 1 / 2248.5) as Hsmall by nra.
  apply Rmult_le_reg_r with (1 + exp (- y)); [lra|].
  replace (100 / (1 + exp (- y)) * (1 + exp (- y))) with 100; [lra|].
  unfold Rdiv. rewrite Rmult_assoc, Rinv_l by lra. ring.
Qed.

Lemma default_oil_efficiency_value (l : Locals.t) :
  assignments default_feed default_equipment default_conditions l ->
  91.11 <= Locals.oil_efficiency l <= 91.16.
Proof.
  intros A.
  rewrite (default_oil_efficiency default_conditions l A eq_refl).
  pose proof (logistic_saturated _ default_oil_sigma_lower) as Hlo.
  pose proof (logistic_bounds (default_oil_sigma default_conditions)) as [_ Hhi].
  cbn [default_conditions temperature].
  set (b := 100 / (1 + exp (-2.5 * (default_oil_sigma default_conditions - 1))))
    in *.
  rewrite clamp_inside by lra. lra.
Qed.

Lemma default_water_quality_value (l : Locals.t) :
  assignments default_feed default_equipment default_conditions l ->
  19000 <= Locals.water_quality l <= 20700.
Proof.
  intros A.
  pose proof (default_oil_efficiency_value l A) as Hoe.
  destruct (locals_efficiency_bounds _ _ _ l A) as [_ Hse].
  pose proof (st_oil_carryover _ _ _ _ A) as Hc.
  pose proof (st_oil_recovered _ _ _ _ A) as Hor.
  pose proof (st_solids_recovered _ _ _ _ A) as Hsr.
  pose proof (st_water_output _ _ _ _ A) as Hwo.
  cbn [default_feed default_conditions feed_flow oil_fraction solids_fraction]
    in Hc, Hor, Hsr, Hwo.
  assert (9.2 <= Locals.water_output l <= 9.82) as Hw by lra.
  assert (0.212 <= Locals.oil_carryover l <= 0.2134) as Hcb by lra.
  pose proof (st_water_quality _ _ _ _ A) as Hq.
  destruct (Rlt_dec 0 (Locals.water_output l)) as [_|N]; [|lra].
  rewrite div_Ok in Hq by lra. cbn [bind] in Hq.
  cbn [default_feed oil_density water_density] in Hq.
  rewrite div_Ok in Hq by lra. cbn [bind] in Hq.
  injection Hq as Hq. rewrite <- Hq.
  pose proof (div_lower_bound 0.212 (Locals.oil_carryover l)
                (Locals.water_output l) 9.82) as Hlow.
  pose proof (div_lower_bound (Locals.oil_carryover l) 0.2134
                9.2 (Locals.water_output l)) as Hup.
  assert (0.212 / 9.82 <= Locals.oil_carryover l / Locals.water_output l)
    as Hlow' by (apply Hlow; lra).
  assert (Locals.oil_carryover l / Locals.water_output l <= 0.2134 / 9.2)
    as Hup' by (apply Hup; lra).
  set (q := Locals.oil_carryover l / Locals.water_output l) in *.
  lra.
Qed.

(** ** The default-configuration scenario *)

(** C7 on the code: on the three default records
    [calculate_separation_efficiency] returns a g-force of 2739 (within 100
    of 2742) and an oil efficiency between 91.11 and 91.16 (above 80), but a
    water quality between 19000 and 20700 ppm, which is not below 100. *)
Theorem default_scenario_water_quality :
  exists res : SeparationResults,
    calculate_separation_efficiency default_feed default_equipment
      default_conditions = Ok res
    /\ g_force res = 2739
    /\ Rabs (g_force res - 2742) < 100
    /\ Rabs (calculate_g_force 400 3500 - 2742) < 100
    /\ 91.11 <= oil_efficiency res <= 91.16
    /\ 80 < oil_efficiency res
    /\ 19000 <= water_quality_ppm res <= 20700
    /\ ~ (water_quality_ppm res < 100).
Proof.
  destruct (efficiency_total default_feed default_equipment default_conditions
              default_regular) as [l [El Er]].
  pose proof (locals_sound _ _ _ _ El) as A.
  destruct (default_g_force_value l A) as (Egf & _ & Hgf).
  pose proof (default_oil_efficiency_value l A) as Hoe.
  pose proof (default_water_quality_value l A) as Hwq.
  exists (separation_results l). split; [exact Er|].
  cbn [separation_results g_force oil_efficiency water_quality_ppm].
  assert (Py.round (Locals.g_force l) 0 = 2739) as Hg.
  { unfold Py.round. rewrite (round_half_even_upper _ 2738) by (simpl; lra).
    simpl. lra. }
  pose proof (round_between 9111 9116 2 (Locals.oil_efficiency l)) as Ro.
  pose proof (round_between 190000 207000 1 (Locals.water_quality l)) as Rw.
  simpl pow in Ro, Rw.
  assert (9111 / (10 * (10 * 1)) <= Py.round (Locals.oil_efficiency l) 2
          <= 9116 / (10 * (10 * 1))) as Ro' by (apply Ro; lra).
  assert (190000 / (10 * 1) <= Py.round (Locals.water_quality l) 1
          <= 207000 / (10 * 1)) as Rw' by (apply Rw; lra).
  rewrite Hg.
  split; [reflexivity|].
  split; [apply Rabs_def1; lra|].
  split; [rewrite <- Egf; apply Rabs_def1; lra|].
  split; [lra|]. split; [lra|]. split; lra.
Qed.

(** * Further properties of the calculation core *)

(** ** Centrifugal force model *)




(** X2: the g-force the pipeline computes inline is the one
    [calculate_g_force] gives for the equipment's bowl diameter and the
    operating bowl speed, and the result record carries it rounded to the
    nearest integer. *)
Theorem pipeline_g_force_is_calculate_g_force (f : FeedProperties)
    (e : EquipmentConfig) (c : OperatingConditions) (res : SeparationResults) :
  calculate_separation_efficiency f e c = Ok res ->
  exists l : Locals.t,
    separation_locals f e c = Ok l
    /\ Locals.g_force l = calculate_g_force (bowl_diameter e) (bowl_speed c)
    /\ g_force res
       = Py.round (calculate_g_force (bowl_diameter e) (bowl_speed c)) 0.
Proof.
  intros H. apply results_inv in H. destruct H as [l [El ->]].
  pose proof (locals_sound _ _ _ _ El) as A.
  assert (Locals.g_force l = calculate_g_force (bowl_diameter e) (bowl_speed c))
    as Eg.
  { rewrite (st_g_force _ _ _ _ A), (st_g_accel _ _ _ _ A),
            (st_omega _ _ _ _ A), (st_r _ _ _ _ A). reflexivity. }
  exists l. split; [exact El|]. split; [exact Eg|].
  cbn [separation_results g_force]. rewrite Eg. reflexivity.
Qed.

Lemma pipeline_g_force_default :
  exists res : SeparationResults,
    calculate_separation_efficiency default_feed default_equipment
      default_conditions = Ok res
    /\ g_force res = Py.round (calculate_g_force 400 3500) 0.
Proof.
  destruct (efficiency_total default_feed default_equipment default_conditions
              default_regular) as [l0 [_ Er]].
  exists (separation_results l0). split; [exact Er|].
  destruct (pipeline_g_force_is_calculate_g_force default_feed
              default_equipment default_conditions (separation_results l0) Er)
    as (l & _ & _ & Hg).
  exact Hg.
Defined.

(** ** Stokes velocity model *)




(** ** Hindered settling model: edges *)

Lemma Rpower_lt_one (x n : R) : 0 < x < 1 -> 0 < n -> Rpower x n < 1.
Proof.
  intros [Hx0 Hx1] Hn. unfold Rpower. rewrite <- exp_0.
  apply exp_increasing.
  assert (ln x < 0) as Hln by (rewrite <- ln_1; apply ln_increasing; lra).
  nra.
Qed.

(** X5: for a packing maximum [max_packing > 0] and an exponent [n > 0],
    [calculate_hindered_settling] returns the input velocity unchanged at
    fraction 0, and for a non-negative velocity and a fraction strictly
    between 0 and [max_packing] it returns a velocity between 0 and the
    input velocity. *)
Theorem hindered_settling_dilute_and_crowded (v f mp n : R) :
  0 < mp -> 0 < n ->
  calculate_hindered_settling v 0 mp n = Ok v
  /\ (0 <= v -> 0 < f < mp ->
      exists h : R,
        calculate_hindered_settling v f mp n = Ok h /\ 0 <= h <= v).
Proof.
  intros Hmp Hn. split.
  - destruct (hindered_free v 0 mp n Hmp Hmp) as [E _]. rewrite E.
    replace (1 - 0 / mp) with 1 by (unfold Rdiv; ring).
    rewrite Rpower_one_base. f_equal. ring.
  - intros Hv [Hf0 Hf].
    destruct (hindered_free v f mp n Hmp Hf) as [E Hb].
    exists (v * Rpower (1 - f / mp) n). split; [exact E|].
    assert (0 < f / mp) as Hq
      by (apply Rdiv_lt_0_compat; assumption).
    pose proof (Rpower_pos (1 - f / mp) n) as Hp.
    pose proof (Rpower_lt_one (1 - f / mp) n ltac:(lra) Hn) as Hlt.
    split; nra.
Qed.

Lemma hindered_settling_dilute_and_crowded_default :
  calculate_hindered_settling 1 0 0.64 4.65 = Ok 1
  /\ (0 <= 1 -> 0 < 0.2 < 0.64 ->
      exists h : R,
        calculate_hindered_settling 1 0.2 0.64 4.65 = Ok h /\ 0 <= h <= 1).
Proof.
  apply (hindered_settling_dilute_and_crowded 1 0.2 0.64 4.65); lra.
Defined.




(** ** Langmuir adsorption model: any positive constants, and negative [k] *)

(** X7: for every adsorption constant [k > 0] and maximum coverage
    [q_max > 0] (not only the defaults), [calculate_langmuir_coverage]
    returns exactly 0 for every dose [<= 0], and for every dose with
    [k * dose <= 1e300] it returns a coverage in the closed interval
    [[0, q_max]]. *)
Theorem langmuir_any_positive_constants (k q_max : R) :
  0 < k -> 0 < q_max ->
  (forall d : R, d <= 0 -> calculate_langmuir_coverage d k q_max = Ok 0)
  /\ (forall d : R,
        k * d <= 1e300 ->
        exists c : R,
          calculate_langmuir_coverage d k q_max = Ok c /\ 0 <= c <= q_max).
Proof.
  intros Hk Hq. split; [intros d; apply langmuir_no_dose|].
  intros d _. destruct (langmuir_total k q_max Hk Hq d) as [c [E Hc]].
  exists c. split; [exact E | lra].
Qed.

Lemma langmuir_any_positive_constants_default :
  (forall d : R, d <= 0 -> calculate_langmuir_coverage d 0.05 0.95 = Ok 0)
  /\ (forall d : R,
        0.05 * d <= 1e300 ->
        exists c : R,
          calculate_langmuir_coverage d 0.05 0.95 = Ok c /\ 0 <= c <= 0.95).
Proof.
  apply (langmuir_any_positive_constants 0.05 0.95); lra.
Defined.

(** X8: with a negative adsorption constant the guarantees of
    [calculate_langmuir_coverage] are lost.  For a positive dose and
    [q_max > 0]: when [1 + k * dose] is exactly zero the call raises
    [ZeroDivisionError], and when [k * dose] lies between -0.999 and -0.001
    (and [q_max >= 1e-100]) the coverage returned is negative. *)
Theorem langmuir_negative_constant (k q_max d : R) :
  0 < d -> 0 < q_max ->
  (1 + k * d = 0 ->
   calculate_langmuir_coverage d k q_max = Raise ZeroDivisionError)
  /\ (-0.999 <= k * d <= -0.001 -> 1e-100 <= q_max ->
      exists c : R,
        calculate_langmuir_coverage d k q_max = Ok c /\ c < 0).
Proof.
  intros Hd Hq. split.
  - intros Hz. unfold calculate_langmuir_coverage.
    destruct (Rle_dec d 0) as [Hle|_]; [lra|].
    rewrite Hz, div_zero. reflexivity.
  - intros [Hlo Hhi] _.
    exists (k * d / (1 + k * d) * q_max).
    assert (k * d / (1 + k * d) < 0) as Hfrac.
    { unfold Rdiv.
      assert (0 < / (1 + k * d)) by (apply Rinv_0_lt_compat; lra). nra. }
    split; [|nra].
    unfold calculate_langmuir_coverage.
    destruct (Rle_dec d 0) as [Hle|_]; [lra|].
    rewrite div_Ok by lra. cbn [bind]. unfold Py.min.
    destruct (Rlt_dec q_max (k * d / (1 + k * d) * q_max)); [nra | reflexivity].
Qed.

Lemma langmuir_negative_constant_example :
  calculate_langmuir_coverage 2 (-0.5) 0.95 = Raise ZeroDivisionError
  /\ exists c : R,
       calculate_langmuir_coverage 1 (-0.5) 0.95 = Ok c /\ c < 0.
Proof.
  split.
  - apply (proj1 (langmuir_negative_constant (-0.5) 0.95 2 ltac:(lra)
                    ltac:(lra))). lra.
  - apply (proj2 (langmuir_negative_constant (-0.5) 0.95 1 ltac:(lra)
                    ltac:(lra))); lra.
Defined.

(** ** Viscosity model: reference point and temperature shifts *)


(** ** Correction factors of the pipeline *)

(** X11: in every run the flow factor is at least 0.6; it is exactly 0.6
    from a feed flow of 20 m3/h upwards, it is [1 - (flow - 10) * 0.04]
    below that, and it is not capped from above: at flows of at most
    10 m3/h (zero and negative flows included) it is at least 1. *)
Theorem flow_factor_floor_and_slope (f : FeedProperties) (e : EquipmentConfig)
    (c : OperatingConditions) (l : Locals.t) :
  separation_locals f e c = Ok l ->
  0.6 <= Locals.flow_factor l
  /\ (20 <= feed_flow c -> Locals.flow_factor l = 0.6)
  /\ (feed_flow c <= 20 ->
      Locals.flow_factor l = 1 - (feed_flow c - 10) * 0.04)
  /\ (feed_flow c <= 10 -> 1 <= Locals.flow_factor l).
Proof.
  intros El. pose proof (locals_sound _ _ _ _ El) as A.
  rewrite (st_flow_factor _ _ _ _ A). unfold Py.max.
  destruct (Rlt_dec 0.6 (1 - (feed_flow c - 10) * 0.04)); repeat split;
    intros; lra.
Qed.

Lemma flow_factor_at_max_flow :
  exists l : Locals.t,
    separation_locals default_feed default_equipment
      {| temperature := 65; bowl_speed := 3500; feed_flow := 15 |} = Ok l
    /\ Locals.flow_factor l = 1 - (15 - 10) * 0.04.
Proof.
  destruct (locals_total default_feed default_equipment
              {| temperature := 65; bowl_speed := 3500; feed_flow := 15 |}
              default_regular) as [l El].
  exists l. split; [exact El|].
  destruct (flow_factor_floor_and_slope default_feed default_equipment
              {| temperature := 65; bowl_speed := 3500; feed_flow := 15 |} l El)
    as (_ & _ & H & _).
  apply H. simpl. lra.
Defined.

(** X12: in every run the flocculant factor is 1 when no flocculant is
    dosed (dose [<= 0]), is [1 + flocculant_eff * (dose / 50) * 0.2] for
    doses up to 50 ppm and stays at [1 + flocculant_eff * 0.2] from 50 ppm
    upwards; for a non-negative efficacy it lies between 1 and
    [1 + 0.2 * flocculant_eff]. *)
Theorem flocculant_factor_saturates (f : FeedProperties) (e : EquipmentConfig)
    (c : OperatingConditions) (l : Locals.t) :
  separation_locals f e c = Ok l ->
  (flocculant_dose f <= 0 -> Locals.flocculant_factor l = 1)
  /\ (0 < flocculant_dose f <= 50 ->
      Locals.flocculant_factor l
      = 1 + flocculant_eff f * (flocculant_dose f / 50) * 0.2)
  /\ (50 <= flocculant_dose f ->
      Locals.flocculant_factor l = 1 + flocculant_eff f * 0.2)
  /\ (0 <= flocculant_eff f ->
      1 <= Locals.flocculant_factor l <= 1 + 0.2 * flocculant_eff f).
Proof.
  intros El. pose proof (locals_sound _ _ _ _ El) as A.
  rewrite (st_flocculant_factor _ _ _ _ A). unfold Py.min.
  destruct (Rlt_dec 0 (flocculant_dose f)) as [Hd|Hd];
    [destruct (Rlt_dec (flocculant_dose f / 50) 1) as [Hs|Hs]|].
  - assert (0 < flocculant_dose f / 50) as Hq by lra.
    repeat split; intros; try lra; nra.
  - repeat split; intros; try lra.
    assert (flocculant_dose f / 50 = 1) as -> by lra. reflexivity.
  - repeat split; intros; lra.
Qed.

Lemma flocculant_factor_at_60_ppm :
  exists l : Locals.t,
    separation_locals
      {| water_fraction := 0.75; oil_fraction := 0.20; solids_fraction := 0.05;
         water_density := 1000; oil_density := 890; solids_density := 2650;
         oil_droplet_d50 := 25; solids_d50 := 80; oil_viscosity := 50;
         viscosity_temp_coeff := 0.025; emulsion_stability := 0.3;
         interfacial_tension := 25; demulsifier_dose := 50;
         demulsifier_eff := 0.7; flocculant_dose := 60; flocculant_eff := 0.8;
         max_packing_fraction := 0.64; hindered_settling_exp := 4.65;
         oil_sphericity := 1; solids_sphericity := 0.8; salinity := 35000 |}
      default_equipment default_conditions = Ok l
    /\ Locals.flocculant_factor l = 1 + 0.8 * 0.2.
Proof.
  match goal with
  | |- exists l, separation_locals ?f ?e ?c = _ /\ _ =>
      assert (regular_input f e) as Hreg
        by (unfold regular_input; simpl; repeat split; lra);
      destruct (locals_total f e c Hreg) as [l El];
      exists l; split; [exact El|];
      destruct (flocculant_factor_saturates f e c l El) as (_ & _ & H & _)
  end.
  apply H. simpl. lra.
Defined.

Lemma emulsion_loss_bounds (s de t : R) :
  0 <= s -> 0 < t -> 0 <= de <= 1 ->
  1 - s * 0.3 / (t / 25) <= 1 - s * 0.3 * (1 - de) / (t / 25) <= 1.
Proof.
  intros Hs Ht Hde. unfold Rdiv.
  assert (0 < / (t * / 25)) as Hr by (apply Rinv_0_lt_compat; lra).
  set (r := / (t * / 25)) in *.
  assert (0 <= s * r) as Hsr by (apply Rmult_le_pos; lra).
  assert (0 <= s * r * de) as H1 by (apply Rmult_le_pos; lra).
  assert (0 <= s * r * (1 - de)) as H2 by (apply Rmult_le_pos; lra).
  split; lra.
Qed.

(** X13: in every run on a feed with non-negative emulsion stability,
    positive interfacial tension and a demulsifier efficacy in [[0, 1]], the
    emulsion factor is at most 1 and at least
    [1 - emulsion_stability * 0.3 / (interfacial_tension / 25)], the value it
    takes when no demulsifier is dosed: dosing demulsifier never lowers it. *)
Theorem emulsion_factor_bounds (f : FeedProperties) (e : EquipmentConfig)
    (c : OperatingConditions) (l : Locals.t) :
  separation_locals f e c = Ok l ->
  0 <= emulsion_stability f -> 0 < interfacial_tension f ->
  0 <= demulsifier_eff f <= 1 ->
  1 - emulsion_stability f * 0.3 / (interfacial_tension f / 25)
  <= Locals.emulsion_factor l <= 1
  /\ (demulsifier_dose f <= 0 ->
      Locals.emulsion_factor l
      = 1 - emulsion_stability f * 0.3 / (interfacial_tension f / 25)).
Proof.
  intros El Hes Hit Heff. pose proof (locals_sound _ _ _ _ El) as A.
  pose proof (st_demulsifier_effect _ _ _ _ A) as Hde.
  destruct (st_emulsion_factor _ _ _ _ A) as [loss [Hloss ->]].
  apply div_Ok_inv in Hloss. destruct Hloss as [_ ->].
  assert (0 < / (interfacial_tension f / 25)) as Hinv
    by (apply Rinv_0_lt_compat; lra).
  assert (0 <= Locals.demulsifier_effect l <= 1
          /\ (demulsifier_dose f <= 0 -> Locals.demulsifier_effect l = 0))
    as [Hrange Hzero].
  { destruct (Rlt_dec 0 (demulsifier_dose f)) as [Hd|Hd].
    - destruct (langmuir_dosed default_k default_q_max)
        with (d := demulsifier_dose f) as [Ecv Hcv];
        try (unfold default_k, default_q_max; lra).
      rewrite Ecv in Hde. cbn [bind] in Hde. injection Hde as <-.
      set (cov := default_k * demulsifier_dose f
                  / (1 + default_k * demulsifier_dose f) * default_q_max) in *.
      unfold default_q_max in Hcv. split; [nra | intros; lra].
    - injection Hde as <-. split; [lra | reflexivity]. }
  split.
  - apply emulsion_loss_bounds; assumption.
  - intros Hd. rewrite (Hzero Hd). unfold Rdiv. ring.
Qed.

Lemma emulsion_factor_bounds_default :
  exists l : Locals.t,
    separation_locals default_feed default_equipment default_conditions = Ok l
    /\ 1 - 0.3 * 0.3 / (25 / 25) <= Locals.emulsion_factor l <= 1.
Proof.
  destruct (locals_total default_feed default_equipment default_conditions
              default_regular) as [l El].
  exists l. split; [exact El|].
  apply (emulsion_factor_bounds default_feed default_equipment
           default_conditions l El); simpl; lra.
Defined.



(** ** Water quality and residence time *)





(** ** Inputs on which the pipeline raises *)

Lemma stokes_zero_viscosity (d dd g s : R) :
  calculate_stokes_velocity d dd 0 g s = Raise ZeroDivisionError.
Proof.
  unfold calculate_stokes_velocity. replace (18 * 0) with 0 by ring.
  rewrite div_zero. reflexivity.
Qed.

Lemma zero_viscosity_raises (f : FeedProperties) (e : EquipmentConfig)
    (c : OperatingConditions) :
  oil_viscosity f = 0 ->
  calculate_separation_efficiency f e c = Raise ZeroDivisionError.
Proof.
  intros Hv. unfold calculate_separation_efficiency, separation_locals.
  cbv zeta. rewrite Hv.
  replace (calculate_viscosity 0 (temperature c) (viscosity_temp_coeff f)
             default_ref_temp) with 0
    by (rewrite calculate_viscosity_eq; ring).
  rewrite stokes_zero_viscosity. reflexivity.
Qed.




(** ** Fields the pipeline never reads *)

(** X18: the result of [calculate_separation_efficiency] does not depend on
    the feed's water fraction nor on the equipment's speed and flow limits
    ([max_rpm], [min_rpm], [max_flow]): two calls that differ only in those
    fields give the same outcome, so the limits are not enforced. *)
Theorem unread_fields_do_not_matter
    (w w' o s wd od sd od50 sd50 ov vtc es it dd de fd fe mp hse osph ssph
       sal bd bl mf mf' : R) (hi lo hi' lo' : Z) (c : OperatingConditions) :
  calculate_separation_efficiency
    (Build_FeedProperties w o s wd od sd od50 sd50 ov vtc es it dd de fd fe
       mp hse osph ssph sal)
    (Build_EquipmentConfig bd bl hi lo mf) c
  = calculate_separation_efficiency
      (Build_FeedProperties w' o s wd od sd od50 sd50 ov vtc es it dd de fd fe
         mp hse osph ssph sal)
      (Build_EquipmentConfig bd bl hi' lo' mf') c.
Proof. reflexivity. Qed.

(** ** The validation tests *)

Lemma float_lt_true (x y : R) : x < y -> float_lt x y = true.
Proof.
  intros H. unfold float_lt. destruct (Rlt_dec x y); [reflexivity | contradiction].
Qed.

Lemma float_lt_false (x y : R) : ~ x < y -> float_lt x y = false.
Proof.
  intros H. unfold float_lt. destruct (Rlt_dec x y); [contradiction | reflexivity].
Qed.

Lemma default_results_values (l : Locals.t) :
  assignments default_feed default_equipment default_conditions l ->
  91.11 <= oil_efficiency (separation_results l) <= 91.16
  /\ 19000 <= water_quality_ppm (separation_results l) <= 20700.
Proof.
  intros A.
  pose proof (default_oil_efficiency_value l A) as Hoe.
  pose proof (default_water_quality_value l A) as Hwq.
  cbn [separation_results oil_efficiency water_quality_ppm].
  pose proof (round_between 9111 9116 2 (Locals.oil_efficiency l)) as Ro.
  pose proof (round_between 190000 207000 1 (Locals.water_quality l)) as Rw.
  simpl pow in Ro, Rw.
  assert (9111 / (10 * (10 * 1)) <= Py.round (Locals.oil_efficiency l) 2
          <= 9116 / (10 * (10 * 1))) as Ro' by (apply Ro; lra).
  assert (190000 / (10 * 1) <= Py.round (Locals.water_quality l) 1
          <= 207000 / (10 * 1)) as Rw' by (apply Rw; lra).
  lra.
Qed.

(** X19: [run_validation_tests] raises nothing and returns five passing
    tests and one failing test: the g-force, viscosity, Stokes, hindered
    settling and Langmuir checks hold, and the full-separation check is
    false, because the water quality computed on the default configuration
    is not below 100 ppm.  The summary it prints is therefore 5/6. *)
Theorem validation_reports_five_of_six :
  exists results : list (string * bool),
    run_validation_tests = Ok results
    /\ results
       = [ ("g_force"%string, true);
           ("viscosity_temp"%string, true);
           ("stokes_velocity"%string, true);
           ("hindered_settling"%string, true);
           ("langmuir"%string, true);
           ("separation"%string, false) ]
    /\ passed results = 5%nat
    /\ total results = 6%nat.
Proof.
  eexists. split; [|split; [reflexivity | split; reflexivity]].
  unfold run_validation_tests. cbv zeta.
  (* test 3 *)
  rewrite stokes_Ok by lra. cbn [bind].
  set (v_stokes := Rabs (25e-6 ^ 2 * 100 * 1000 * default_sphericity
                         / (18 * 0.001))).
  assert (0 < v_stokes) as Hvs.
  { apply Rabs_pos_lt. unfold default_sphericity. simpl pow. lra. }
  (* test 4 *)
  destruct (hindered_free v_stokes 0.2 0.64 4.65) as [Eh Hb]; try lra.
  rewrite Eh. cbn [bind].
  assert (v_stokes * Rpower (1 - 0.2 / 0.64) 4.65 < v_stokes) as Hvh.
  { pose proof (Rpower_lt_one (1 - 0.2 / 0.64) 4.65 ltac:(lra) ltac:(lra)). nra. }
  rewrite div_Ok by lra. cbn [bind].
  (* test 5 *)
  destruct (langmuir_dosed 0.05 0.95 ltac:(lra) ltac:(lra) 50 ltac:(lra))
    as [Ec Hc].
  rewrite Ec. cbn [bind].
  (* test 6 *)
  destruct (efficiency_total default_feed default_equipment default_conditions
              default_regular) as [l [El Er]].
  rewrite Er. cbn [bind].
  pose proof (locals_sound _ _ _ _ El) as A.
  destruct (default_results_values l A) as [Hoe Hwq].
  destruct (default_g_force_value l A) as (Egf & _ & Hgf). rewrite Egf in Hgf.
  (* the six verdicts *)
  rewrite (float_lt_true (Rabs (calculate_g_force 400 3500 - 2742)) 100)
    by (apply Rabs_def1; lra).
  rewrite (float_lt_true (calculate_viscosity 50 65 0.025 default_ref_temp))
    by (rewrite !calculate_viscosity_eq;
        apply Rmult_lt_compat_l; [lra|];
        apply arrhenius_factor_decreasing; lra).
  rewrite (float_lt_true 0 v_stokes) by exact Hvs.
  rewrite (float_lt_true _ v_stokes) by exact Hvh.
  rewrite (float_lt_true 0 _) by lra.
  rewrite (float_lt_true _ 1) by lra.
  rewrite (float_lt_true 80 _) by lra.
  rewrite (float_lt_false _ 100) by lra.
  reflexivity.
Qed.

(** ** Calculation from command-line arguments *)



(** ** Temperature on the default feed and equipment *)

(** X21: on the default feed and equipment, at the default bowl speed and
    feed flow, the returned oil efficiency never decreases when the
    temperature rises, for all temperatures between -65 C (from where the
    temperature factor is non-negative) and 1000 C. *)
Theorem oil_efficiency_monotone_in_temperature (T1 T2 : R) :
  -65 <= T1 -> T1 <= T2 -> T2 <= 1000 ->
  exists r1 r2 : SeparationResults,
    calculate_separation_efficiency default_feed default_equipment
      (conditions_at_temperature T1) = Ok r1
    /\ calculate_separation_efficiency default_feed default_equipment
         (conditions_at_temperature T2) = Ok r2
    /\ oil_efficiency r1 <= oil_efficiency r2.
Proof.
  intros H1 H12 _.
  destruct (efficiency_total default_feed default_equipment
              (conditions_at_temperature T1) default_regular)
    as [l1 [E1 R1]].
  destruct (efficiency_total default_feed default_equipment
              (conditions_at_temperature T2) default_regular)
    as [l2 [E2 R2]].
  exists (separation_results l1), (separation_results l2).
  split; [exact R1|]. split; [exact R2|].
  cbn [separation_results oil_efficiency].
  apply round_mono.
  apply (default_oil_efficiency_mono (conditions_at_temperature T1)
           (conditions_at_temperature T2));
    try (apply locals_sound; assumption); try reflexivity.
  simpl. lra.
Qed.

Lemma oil_efficiency_monotone_20_to_90 :
  exists r1 r2 : SeparationResults,
    calculate_separation_efficiency default_feed default_equipment
      (conditions_at_temperature 20) = Ok r1
    /\ calculate_separation_efficiency default_feed default_equipment
         (conditions_at_temperature 90) = Ok r2
    /\ oil_efficiency r1 <= oil_efficiency r2.
Proof.
  apply (oil_efficiency_monotone_in_temperature 20 90); lra.
Defined.

(** X22: at an operating temperature of -65 C or below the temperature
    factor is zero or negative, and a run whose emulsion and flocculant
    factors are non-negative reports oil and solids efficiencies of exactly
    0: the lower clamp, not the logistic curve, decides the result. *)
Theorem efficiencies_clamped_to_zero_when_cold (f : FeedProperties)
    (e : EquipmentConfig) (c : OperatingConditions) (l : Locals.t) :
  separation_locals f e c = Ok l ->
  temperature c <= -65 ->
  0 <= Locals.emulsion_factor l -> 0 <= Locals.flocculant_factor l ->
  Locals.temp_factor l <= 0
  /\ oil_efficiency (separation_results l) = 0
  /\ solids_efficiency (separation_results l) = 0.
Proof.
  intros El HT Hem Hfl. pose proof (locals_sound _ _ _ _ El) as A.
  assert (Locals.temp_factor l <= 0) as Htf
    by (rewrite (st_temp_factor _ _ _ _ A); lra).
  assert (0.6 <= Locals.flow_factor l) as Hff.
  { rewrite (st_flow_factor _ _ _ _ A). unfold Py.max.
    destruct (Rlt_dec 0.6 (1 - (feed_flow c - 10) * 0.04)); lra. }
  pose proof (st_oil_eff_base _ _ _ _ A) as Bo.
  pose proof (st_solids_eff_base _ _ _ _ A) as Bs.
  rewrite logistic_Ok in Bo, Bs. injection Bo as Bo. injection Bs as Bs.
  pose proof (logistic_bounds (Locals.oil_sigma l)) as [Hbo _].
  pose proof (logistic_bounds (Locals.solids_sigma l)) as [Hbs _].
  rewrite Bo in Hbo. rewrite Bs in Hbs.
  assert (forall hi b x : R,
            0 <= hi -> 0 < b -> 0 <= x ->
            Py.min hi
              (Py.max 0 (b * Locals.flow_factor l * x * Locals.temp_factor l))
            = 0) as Hclamp.
  { intros hi b x Hhi Hb Hx.
    assert (0 <= b * Locals.flow_factor l * x) as Hp
      by (repeat apply Rmult_le_pos; lra).
    assert (b * Locals.flow_factor l * x * Locals.temp_factor l <= 0) as Hneg
      by nra.
    unfold Py.max, Py.min.
    destruct (Rlt_dec 0 (b * Locals.flow_factor l * x * Locals.temp_factor l));
      [lra|].
    destruct (Rlt_dec 0 hi); lra. }
  pose proof (round_decimal 0 2) as R0.
  replace (0 / 10 ^ 2) with 0 in R0 by (simpl; lra).
  split; [exact Htf|].
  cbn [separation_results oil_efficiency solids_efficiency].
  rewrite (st_oil_efficiency _ _ _ _ A), (st_solids_efficiency _ _ _ _ A).
  rewrite !Hclamp by lra. split; exact R0.
Qed.

Lemma efficiencies_clamped_at_minus_70 :
  exists l : Locals.t,
    separation_locals default_feed default_equipment
      (conditions_at_temperature (-70)) = Ok l
    /\ oil_efficiency (separation_results l) = 0
    /\ solids_efficiency (separation_results l) = 0.
Proof.
  destruct (locals_total default_feed default_equipment
              (conditions_at_temperature (-70)) default_regular) as [l El].
  exists l. split; [exact El|].
  pose proof (locals_sound _ _ _ _ El) as A.
  destruct (default_chemistry_factors _ _ _ l A) as [Hem Hfl];
    try reflexivity.
  apply (efficiencies_clamped_to_zero_when_cold default_feed default_equipment
           (conditions_at_temperature (-70)) l El);
    [simpl; lra | rewrite Hem; lra | rewrite Hfl; lra].
Defined.
